(** * spend_analysis: a shallow embedding of [spend_analysis.py]

    The script reads bank exports with pandas, brings each of them to the
    three columns Date / Amount / Description, concatenates them, looks up a
    category for every description and writes [out.csv].

    The functions of the script ([lookup], [normalize_citi],
    [normalize_discover], [normalize_wellsfargo], [main]) are embedded as
    Rocq functions over a small model of the pandas data frame.  Python
    exceptions are values of [result]; the three library routines whose
    behaviour is not part of the script (regular expression search, the
    number parser behind [pd.to_numeric], [datetime.strptime]) are the
    fields of the class [PyLib]. *)

From Stdlib Require Import String Ascii List Bool Arith Lia ZArith.
Import ListNotations.
Open Scope string_scope.
Open Scope list_scope.

Set Implicit Arguments.

(** ** Exceptions *)

Inductive exn : Type :=
| KeyError            (* a column label is not in the frame *)
| ValueError          (* unparsable number or date, length mismatch, nothing to concatenate *)
| TypeError           (* a value of the wrong Python type *)
| IndexError          (* positional access out of range *)
| re_error            (* re.error: the pattern is not a regular expression *)
| EmptyDataError      (* pandas.errors.EmptyDataError: nothing to parse *)
| ParserError         (* pandas.errors.ParserError: a line with too many fields *)
| InvalidIndexError   (* reindexing over duplicate labels *)
| SystemExit.         (* argparse rejects the command line *)

Inductive result (A : Type) : Type :=
| Ok (a : A)
| Raise (e : exn).

Arguments Ok {A} a.
Arguments Raise {A} e.

Definition bind {A B : Type} (r : result A) (k : A -> result B) : result B :=
  match r with
  | Ok a => k a
  | Raise e => Raise e
  end.

Notation "x <- r ;; k" := (bind r (fun x => k))
  (at level 61, r at next level, right associativity).

Fixpoint mapM {A B : Type} (f : A -> result B) (l : list A) : result (list B) :=
  match l with
  | [] => Ok []
  | a :: l' => b <- f a ;; bs <- mapM f l' ;; Ok (b :: bs)
  end.

(** [except ValueError]: the classes the handler in [main] catches.
    pandas' EmptyDataError and ParserError derive from ValueError. *)
Definition is_ValueError (e : exn) : bool :=
  match e with
  | ValueError | EmptyDataError | ParserError => true
  | _ => false
  end.

(** ** The library routines the script calls *)

Class PyLib : Type := {
  (** the numbers of a numeric column (float64 in pandas) *)
  num : Type;
  num_zero : num;
  num_add : num -> num -> num;
  num_eqb : num -> num -> bool;
  (** [pd.to_numeric] on one string; [None] is "Unable to parse string" *)
  to_numeric_str : string -> option num;
  (** [re.search(pattern, s, re.IGNORECASE)]: [Some true] when a match object
      comes back, [Some false] when [None] comes back, [None] when the
      pattern does not compile *)
  re_search : string -> string -> option bool;
  (** [datetime.strptime(s, "%m/%d/%Y")]: [false] is the ValueError *)
  strptime_mdY : string -> bool
}.

Section Embedding.

Context {L : PyLib}.

(** ** Cells, labels, frames *)

(** What [pd.read_csv(..., header=None)] leaves in a cell: text, a number
    (in a column pandas could read as numeric), or NaN for a blank. *)
Inductive cell : Type :=
| CStr (s : string)
| CNum (x : num)
| CNaN.

(** A column label is a position (the default labels 0, 1, ... of
    [header=None]) or a value, once [df.columns = df.iloc[0]] has run. *)
Inductive label : Type :=
| LPos (n : nat)
| LVal (c : cell).

Definition col (s : string) : label := LVal (CStr s).

Definition cell_eqb (a b : cell) : bool :=
  match a, b with
  | CStr s, CStr t => String.eqb s t
  | CNum x, CNum y => num_eqb x y
  | CNaN, CNaN => true
  | _, _ => false
  end.

Definition label_eqb (a b : label) : bool :=
  match a, b with
  | LPos n, LPos m => Nat.eqb n m
  | LVal c, LVal d => cell_eqb c d
  | _, _ => false
  end.

(** Row-major frame: the column labels, the row labels and the rows. *)
Record DataFrame : Type := {
  columns : list label;
  index : list nat;
  rows : list (list cell)
}.

(** ** The pandas operations the script uses *)

Definition has_label (l : label) (cols : list label) : bool :=
  existsb (label_eqb l) cols.

Definition count_label (l : label) (cols : list label) : nat :=
  length (filter (label_eqb l) cols).

(** A row is read with its labels: [combine cols row] pairs every cell with
    the label of its column.  [under l] picks the pairs labelled [l]. *)
Definition under (l : label) (lc : label * cell) : bool :=
  label_eqb l (fst lc).

(** The cells of one row that sit under label [l]. *)
Definition col_values (l : label) (cols : list label) (row : list cell) : list cell :=
  map snd (filter (under l) (combine cols row)).

Definition reindex_row (target cols : list label) (row : list cell) : list cell :=
  map (fun l => hd CNaN (col_values l cols row)) target.

(** [df[l]] used as a Series.  With a repeated label pandas hands back a
    sub-frame, which every consumer in the script ([pd.to_numeric], [+],
    [re.search]) rejects with a TypeError. *)
Definition getitem (df : DataFrame) (l : label) : result (list cell) :=
  match count_label l (columns df) with
  | 0 => Raise KeyError
  | 1 => Ok (map (fun r => hd CNaN (col_values l (columns df) r)) (rows df))
  | _ => Raise TypeError
  end.

(** [s[k]] on a Series: the value at row label [k]. *)
Fixpoint loc (idx : list nat) (vals : list cell) (k : nat) : result cell :=
  match idx, vals with
  | i :: idx', v :: vals' => if Nat.eqb i k then Ok v else loc idx' vals' k
  | _, _ => Raise KeyError
  end.

Definition set_row (l : label) (cols : list label) (row : list cell) (v : cell) : list cell :=
  if has_label l cols
  then map (fun lc => if under l lc then v else snd lc) (combine cols row)
  else row ++ [v].

(** [df[l] = vals]: overwrite the column(s) labelled [l], or append a new
    last column.  The script only assigns a Series computed from the frame
    itself, so [vals] has one value per row. *)
Definition setitem (df : DataFrame) (l : label) (vals : list cell) : DataFrame :=
  {| columns := if has_label l (columns df) then columns df else columns df ++ [l];
     index := index df;
     rows := map (fun rv => set_row l (columns df) (fst rv) (snd rv))
                 (combine (rows df) vals) |}.

Definition kept (ls : list label) (l : label) : bool :=
  negb (has_label l ls).

Definition drop_row (ls cols : list label) (row : list cell) : list cell :=
  map snd (filter (fun lc => kept ls (fst lc)) (combine cols row)).

(** [df.drop(columns=ls)]: every label must be there. *)
Definition drop_columns (df : DataFrame) (ls : list label) : result DataFrame :=
  if forallb (fun l => has_label l (columns df)) ls
  then Ok {| columns := filter (kept ls) (columns df);
             index := index df;
             rows := map (drop_row ls (columns df)) (rows df) |}
  else Raise KeyError.

Definition select_row (ls cols : list label) (row : list cell) : list cell :=
  flat_map (fun l => col_values l cols row) ls.

(** [df[[l1, ..., ln]]]: the columns in the order asked for. *)
Definition select_columns (df : DataFrame) (ls : list label) : result DataFrame :=
  if forallb (fun l => has_label l (columns df)) ls
  then Ok {| columns := flat_map (fun l => filter (label_eqb l) (columns df)) ls;
             index := index df;
             rows := map (select_row ls (columns df)) (rows df) |}
  else Raise KeyError.

(** [df.rename(columns={old: new})]: silent when [old] is absent. *)
Definition rename_column (df : DataFrame) (old new : label) : DataFrame :=
  {| columns := map (fun c => if label_eqb old c then new else c) (columns df);
     index := index df;
     rows := rows df |}.

(** [df.columns = ls]: the lengths must agree. *)
Definition set_columns (df : DataFrame) (ls : list label) : result DataFrame :=
  if Nat.eqb (length ls) (length (columns df))
  then Ok {| columns := ls; index := index df; rows := rows df |}
  else Raise ValueError.

(** [df.iloc[0]] *)
Definition iloc0 (df : DataFrame) : result (list cell) :=
  match rows df with
  | r :: _ => Ok r
  | [] => Raise IndexError
  end.

(** [df[1:]] *)
Definition tail_rows (df : DataFrame) : DataFrame :=
  {| columns := columns df; index := tl (index df); rows := tl (rows df) |}.

Definition fill0 (c : cell) : cell :=
  match c with
  | CNaN => CNum num_zero
  | _ => c
  end.

(** [df.fillna(0)]: every NaN of the frame, whatever its column. *)
Definition fillna0 (df : DataFrame) : DataFrame :=
  {| columns := columns df; index := index df; rows := map (map fill0) (rows df) |}.

Definition to_numeric_cell (c : cell) : result cell :=
  match c with
  | CStr s =>
      match to_numeric_str s with
      | Some x => Ok (CNum x)
      | None => Raise ValueError
      end
  | CNum x => Ok (CNum x)
  | CNaN => Ok CNaN
  end.

(** [pd.to_numeric(series)] *)
Definition to_numeric (vals : list cell) : result (list cell) :=
  mapM to_numeric_cell vals.

(** One sum of [a + b]: NaN absorbs; text is not reached, both columns come
    out of [pd.to_numeric]. *)
Definition add_cell (a b : cell) : result cell :=
  match a, b with
  | CNum x, CNum y => Ok (CNum (num_add x y))
  | CNaN, CNum _ | CNum _, CNaN | CNaN, CNaN => Ok CNaN
  | _, _ => Raise TypeError
  end.

(** [a + b] on two numeric Series of one frame. *)
Definition series_add (a b : list cell) : result (list cell) :=
  mapM (fun ab => add_cell (fst ab) (snd ab)) (combine a b).

Definition has_dup (cols : list label) : bool :=
  existsb (fun l => Nat.ltb 1 (count_label l cols)) cols.

Fixpoint union_labels (seen : list label) (ls : list label) : list label :=
  match ls with
  | [] => seen
  | l :: ls' => union_labels (if has_label l seen then seen else seen ++ [l]) ls'
  end.

Definition labels_eqb (a b : list label) : bool :=
  Nat.eqb (length a) (length b) &&
  forallb (fun ab => label_eqb (fst ab) (snd ab)) (combine a b).

(** [pd.concat(frames)]: rows one after the other.  Frames with the same
    columns are stacked as they are.  Otherwise the columns are those of the
    first frame, then the labels only later frames have, and every row is
    aligned on them by label, which pandas refuses when a frame repeats a
    label.  An empty list is a ValueError ("No objects to concatenate"). *)
Definition concat (dfs : list DataFrame) : result DataFrame :=
  match dfs with
  | [] => Raise ValueError
  | d0 :: rest =>
      if forallb (fun d => labels_eqb (columns d) (columns d0)) rest
      then Ok {| columns := columns d0;
                 index := flat_map index dfs;
                 rows := flat_map rows dfs |}
      else if existsb (fun d => has_dup (columns d)) dfs
      then Raise InvalidIndexError
      else
        let u := union_labels [] (flat_map columns dfs) in
        Ok {| columns := u;
              index := flat_map index dfs;
              rows := flat_map (fun d => map (reindex_row u (columns d)) (rows d)) dfs |}
  end.

(** ** [lookup] *)

Record rule : Type := { regex : string; category : string }.

Fixpoint lookup (description : string) (lookups : list rule) : result string :=
  match lookups with
  | [] => Ok "unknown"
  | row :: rest =>
      match re_search (regex row) description with
      | None => Raise re_error
      | Some true => Ok (category row)
      | Some false => lookup description rest
      end
  end.

(** ** The normalizers *)

Definition normalize_citi (dataframe : DataFrame) : result DataFrame :=
  (* df.columns = df.iloc[0] *)
  hdr <- iloc0 dataframe ;;
  df <- set_columns dataframe (map LVal hdr) ;;
  (* df = df[1:] *)
  let df := tail_rows df in
  (* df["Debit"] = pd.to_numeric(df["Debit"]) *)
  debit <- getitem df (col "Debit") ;;
  debit <- to_numeric debit ;;
  let df := setitem df (col "Debit") debit in
  (* df["Credit"] = pd.to_numeric(df["Credit"]) *)
  credit <- getitem df (col "Credit") ;;
  credit <- to_numeric credit ;;
  let df := setitem df (col "Credit") credit in
  (* df.fillna(0, inplace=True) *)
  let df := fillna0 df in
  (* df["Amount"] = df["Credit"] + df["Debit"] *)
  credit <- getitem df (col "Credit") ;;
  debit <- getitem df (col "Debit") ;;
  amount <- series_add credit debit ;;
  let df := setitem df (col "Amount") amount in
  (* df.drop(columns=[...], inplace=True) *)
  df <- drop_columns df [col "Status"; col "Member Name"; col "Debit"; col "Credit"] ;;
  (* df = df[["Date", "Amount", "Description"]] *)
  select_columns df [col "Date"; col "Amount"; col "Description"].

Definition normalize_discover (dataframe : DataFrame) : result DataFrame :=
  hdr <- iloc0 dataframe ;;
  df <- set_columns dataframe (map LVal hdr) ;;
  let df := tail_rows df in
  df <- drop_columns df [col "Post Date"; col "Category"] ;;
  let df := rename_column df (col "Trans. Date") (col "Date") in
  df <- select_columns df [col "Date"; col "Description"; col "Amount"] ;;
  (* df["Amount"] = pd.to_numeric(df["Amount"]) *)
  amount <- getitem df (col "Amount") ;;
  amount <- to_numeric amount ;;
  Ok (setitem df (col "Amount") amount).

Definition normalize_wellsfargo (dataframe : DataFrame) : result DataFrame :=
  df <- drop_columns dataframe [LPos 2; LPos 3] ;;
  set_columns df [col "Date"; col "Amount"; col "Description"].

(** ** [main] *)

(** An input file, as [main] sees it: its name and the table
    [pd.read_csv(file, header=None)] parses out of it. *)
Record file : Type := { name : string; parsed : list (list cell) }.

Definition pad (w : nat) (r : list cell) : list cell :=
  r ++ repeat CNaN (w - length r).

(** The first line fixes the number of columns; a shorter line is filled
    up with NaN, a longer one is a ParserError. *)
Definition read_csv (f : file) : result DataFrame :=
  match parsed f with
  | [] => Raise EmptyDataError
  | r0 :: _ =>
      if forallb (fun r => Nat.leb (length r) (length r0)) (parsed f)
      then Ok {| columns := map LPos (seq 0 (length r0));
                 index := seq 0 (length (parsed f));
                 rows := map (pad (length r0)) (parsed f) |}
      else Raise ParserError
  end.

(** [df[0][0]]: column label 0, then row label 0. *)
Definition first_cell (df : DataFrame) : result cell :=
  s <- getitem df (LPos 0) ;;
  loc (index df) s 0.

(** ["Status" == x] *)
Definition str_eq_cell (s : string) (x : cell) : bool :=
  match x with
  | CStr t => String.eqb s t
  | _ => false
  end.

(** [datetime.strptime(x, "%m/%d/%Y")] *)
Definition strptime (x : cell) : result unit :=
  match x with
  | CStr s => if strptime_mdY s then Ok tt else Raise ValueError
  | _ => Raise TypeError
  end.

Definition unknown_format (f : file) : string :=
  ("Error: Unknown format from " ++ name f)%string.

(** One turn of the [for file in args.files] loop: a frame to append to
    [transaction_dataframes], a line to print, or an exception nothing
    catches. *)
Inductive step : Type :=
| Append (df : DataFrame)
| Print (line : string)
| Abort (e : exn).

Definition loop_body (f : file) : step :=
  match read_csv f with
  | Raise e => Abort e
  | Ok df =>
      match first_cell df with
      | Raise e => Abort e
      | Ok c =>
          if str_eq_cell "Status" c then
            match normalize_citi df with
            | Ok df' => Append df'
            | Raise e => Abort e
            end
          else if str_eq_cell "Trans. Date" c then
            match normalize_discover df with
            | Ok df' => Append df'
            | Raise e => Abort e
            end
          else
            (* try: strptime; normalize_wellsfargo; append
               except ValueError: print *)
            match (_ <- strptime c ;; normalize_wellsfargo df) with
            | Ok df' => Append df'
            | Raise e => if is_ValueError e then Print (unknown_format f) else Abort e
            end
      end
  end.

(** The loop.  [printed] is what has gone to standard output,
    [transaction_dataframes] the accumulator; an uncaught exception ends the
    loop and the run. *)
Fixpoint main_loop (files : list file) (printed : list string)
    (transaction_dataframes : list DataFrame)
    : list string * result (list DataFrame) :=
  match files with
  | [] => (printed, Ok transaction_dataframes)
  | f :: rest =>
      match loop_body f with
      | Append df => main_loop rest printed (transaction_dataframes ++ [df])
      | Print line => main_loop rest (printed ++ [line]) transaction_dataframes
      | Abort e => (printed, Raise e)
      end
  end.

(** [lambda x: lookup(x, lookup_df)] on one cell of the Description column.
    [re.search] compiles the pattern first and then refuses a subject that is
    not a string; whether a pattern compiles does not depend on the subject,
    so it is asked on the empty string. *)
Definition categorize (lookup_df : list rule) (x : cell) : result cell :=
  match x with
  | CStr s => c <- lookup s lookup_df ;; Ok (CStr c)
  | _ =>
      match lookup_df with
      | [] => Ok (CStr "unknown")
      | row :: _ =>
          match re_search (regex row) "" with
          | None => Raise re_error
          | Some _ => Raise TypeError
          end
      end
  end.

(** What [to_csv("out.csv", index=False)] writes: the header line and the
    rows, without the row labels. *)
Record csv : Type := { header : list label; body : list (list cell) }.

Definition to_csv (df : DataFrame) : csv :=
  {| header := columns df; body := rows df |}.

(** A run: what was printed, and either the file written to out.csv or the
    exception that ended the run before anything was written. *)
Record run : Type := { stdout : list string; out_csv : result csv }.

Definition main (lookup_df : list rule) (files : list file) : run :=
  match files with
  | [] => {| stdout := []; out_csv := Raise SystemExit |}   (* nargs="+" *)
  | _ =>
      let (printed, r) := main_loop files [] [] in
      {| stdout := printed;
         out_csv :=
           transaction_dataframes <- r ;;
           result <- concat transaction_dataframes ;;
           description <- getitem result (col "Description") ;;
           category <- mapM (categorize lookup_df) description ;;
           Ok (to_csv (setitem result (col "Category") category)) |}
  end.

End Embedding.

(** ** An instance of the library, to run the script on the examples of its
    docstrings

    Numbers are decimal fractions, [pd.to_numeric] reads an optionally signed
    decimal numeral, [strptime] accepts month/day/four-digit year with a day
    the month has.  [re.search] is interpreted for patterns made of letters,
    digits and blanks only, where it is a case-insensitive substring test;
    this instance does not interpret metacharacters and answers [None] on
    any other pattern. *)

Module Py.

Record dec : Type := { mantissa : Z; places : nat }.

Definition dec_add (a b : dec) : dec :=
  let p := Nat.max (places a) (places b) in
  {| mantissa := (mantissa a * 10 ^ Z.of_nat (p - places a)
                  + mantissa b * 10 ^ Z.of_nat (p - places b))%Z;
     places := p |}.

Definition dec_eqb (a b : dec) : bool :=
  Z.eqb (mantissa a) (mantissa b) && Nat.eqb (places a) (places b).

Definition is_digit (c : ascii) : bool :=
  let n := nat_of_ascii c in Nat.leb 48 n && Nat.leb n 57.

Definition is_letter (c : ascii) : bool :=
  let n := nat_of_ascii c in
  (Nat.leb 65 n && Nat.leb n 90) || (Nat.leb 97 n && Nat.leb n 122).

Definition digit_val (c : ascii) : nat := nat_of_ascii c - 48.

Definition lower (c : ascii) : ascii :=
  let n := nat_of_ascii c in
  if Nat.leb 65 n && Nat.leb n 90 then ascii_of_nat (n + 32) else c.

(** digits, at most one point, at least one digit *)
Fixpoint parse_digits (s : string) (m : Z) (p : nat) (dot seen : bool) : option dec :=
  match s with
  | EmptyString => if seen then Some {| mantissa := m; places := p |} else None
  | String c s' =>
      if is_digit c
      then parse_digits s' (10 * m + Z.of_nat (digit_val c))%Z
                        (if dot then S p else p) dot true
      else if Ascii.eqb c "."%char && negb dot
      then parse_digits s' m p true seen
      else None
  end.

Definition parse_dec (s : string) : option dec :=
  match s with
  | String "-"%char s' =>
      match parse_digits s' 0%Z 0 false false with
      | Some d => Some {| mantissa := (- mantissa d)%Z; places := places d |}
      | None => None
      end
  | _ => parse_digits s 0%Z 0 false false
  end.

Fixpoint prefix_ci (p s : string) : bool :=
  match p, s with
  | EmptyString, _ => true
  | String a p', String b s' => Ascii.eqb (lower a) (lower b) && prefix_ci p' s'
  | String _ _, EmptyString => false
  end.

Fixpoint search_ci (p s : string) : bool :=
  prefix_ci p s ||
  match s with
  | EmptyString => false
  | String _ s' => search_ci p s'
  end.

Fixpoint plain (p : string) : bool :=
  match p with
  | EmptyString => true
  | String c p' => (is_digit c || is_letter c || Ascii.eqb c " "%char) && plain p'
  end.

Definition search (p s : string) : option bool :=
  if plain p then Some (search_ci p s) else None.

(** the text before the first [sep], and the text after it *)
Fixpoint split_at (sep : ascii) (s : string) : string * option string :=
  match s with
  | EmptyString => (EmptyString, None)
  | String c s' =>
      if Ascii.eqb c sep then (EmptyString, Some s')
      else let (a, b) := split_at sep s' in (String c a, b)
  end.

Fixpoint number (s : string) (acc : nat) : option nat :=
  match s with
  | EmptyString => Some acc
  | String c s' => if is_digit c then number s' (10 * acc + digit_val c) else None
  end.

Definition field (lo hi : nat) (s : string) : option nat :=
  if Nat.leb lo (String.length s) && Nat.leb (String.length s) hi
  then number s 0 else None.

Definition leap (y : nat) : bool :=
  (Nat.eqb (y mod 4) 0 && negb (Nat.eqb (y mod 100) 0)) || Nat.eqb (y mod 400) 0.

Definition days_in (m y : nat) : nat :=
  match m with
  | 2 => if leap y then 29 else 28
  | 4 | 6 | 9 | 11 => 30
  | _ => 31
  end.

Definition mdY (s : string) : bool :=
  match split_at "/"%char s with
  | (ms, Some rest) =>
      match split_at "/"%char rest with
      | (ds, Some ys) =>
          match field 1 2 ms, field 1 2 ds, field 4 4 ys with
          | Some m, Some d, Some y =>
              Nat.leb 1 m && Nat.leb m 12 && Nat.leb 1 d && Nat.leb d (days_in m y)
              && Nat.leb 1 y
          | _, _, _ => false
          end
      | _ => false
      end
  | _ => false
  end.

#[export] Instance lib : PyLib := {|
  num := dec;
  num_zero := {| mantissa := 0; places := 0 |};
  num_add := dec_add;
  num_eqb := dec_eqb;
  to_numeric_str := parse_dec;
  re_search := search;
  strptime_mdY := mdY
|}.

Definition N (m : Z) (p : nat) : cell := CNum (L := lib) {| mantissa := m; places := p |}.
Definition S_ (s : string) : cell := CStr (L := lib) s.

(** the rule table of the docstring of [lookup] *)
Definition rules : list rule :=
  [ {| regex := "ALDI"; category := "food" |};
    {| regex := "AMAZING THREADS"; category := "merchandise" |} ].

(** the citi export of the docstring of [normalize_citi] *)
Definition citi_csv : file := {|
  name := "citi.csv";
  parsed :=
    [ [S_ "Status"; S_ "Date"; S_ "Description"; S_ "Debit"; S_ "Credit"; S_ "Member Name"];
      [S_ "Cleared"; S_ "01/28/2023"; S_ "BROOKLYN PARK PET HOSPITABROOKLYN PARKMN";
       S_ "14.52"; CNaN; S_ "BOB JHONES"];
      [S_ "Cleared"; S_ "12/05/2022"; S_ "THE HOME DEPOT #2804 BROOKLYN PARKMN";
       CNaN; S_ "-7.49"; S_ "JILL JHONES"] ] |}.

(** the discover export of the docstring of [normalize_discover] *)
Definition discover_csv : file := {|
  name := "discover.csv";
  parsed :=
    [ [S_ "Trans. Date"; S_ "Post Date"; S_ "Description"; S_ "Amount"; S_ "Category"];
      [S_ "01/10/2022"; S_ "01/11/2022"; S_ "THE HOME DEPOT #0509 AUSTIN TX";
       S_ "27.03"; S_ "Home Improvement"];
      [S_ "01/11/2022"; S_ "01/11/2022"; S_ "NEW TECH TENNIS AUSTIN TX";
       S_ "35.32"; S_ "Merchandise"] ] |}.

(** the wells fargo export of the docstring of [normalize_wellsfargo] *)
Definition wellsfargo_csv : file := {|
  name := "wellsfargo.csv";
  parsed :=
    [ [S_ "01/10/2023"; N (-724) 2; S_ "*"; CNaN; S_ "Audible*8931J9V53 Amzn.com/billNJ"];
      [S_ "01/04/2023"; N (-20636) 2; S_ "*"; CNaN; S_ "STATE FARM INSURANCE 800-956-6310 IL"] ] |}.

(** a file no format claims *)
Definition other_csv : file := {|
  name := "other.csv";
  parsed := [ [S_ "???"; S_ "x"; S_ "y"] ] |}.

(** a file whose first column pandas reads as numbers *)
Definition numbered_csv : file := {|
  name := "numbered.csv";
  parsed := [ [N 1 0; S_ "x"; S_ "y"]; [N 2 0; S_ "z"; S_ "w"] ] |}.

(** a citi export with a Debit cell that is not a number *)
Definition bad_citi_csv : file := {|
  name := "bad_citi.csv";
  parsed :=
    [ [S_ "Status"; S_ "Date"; S_ "Description"; S_ "Debit"; S_ "Credit"; S_ "Member Name"];
      [S_ "Cleared"; S_ "01/28/2023"; S_ "BROOKLYN PARK PET HOSPITABROOKLYN PARKMN";
       S_ "abc"; CNaN; S_ "BOB JHONES"] ] |}.

(** a wells fargo export with an amount that is not a number *)
Definition bad_wellsfargo_csv : file := {|
  name := "bad_wellsfargo.csv";
  parsed :=
    [ [S_ "01/10/2023"; S_ "abc"; S_ "*"; CNaN; S_ "Audible*8931J9V53 Amzn.com/billNJ"] ] |}.

(** the frames [pd.read_csv] makes of these files *)
Definition frame (f : file) (width : nat) : DataFrame :=
  {| columns := map LPos (seq 0 width);
     index := seq 0 (length (parsed f));
     rows := parsed f |}.

Definition citi_df : DataFrame := frame citi_csv 6.
Definition discover_df : DataFrame := frame discover_csv 5.
Definition wellsfargo_df : DataFrame := frame wellsfargo_csv 5.
Definition bad_citi_df : DataFrame := frame bad_citi_csv 6.
Definition bad_wellsfargo_df : DataFrame := frame bad_wellsfargo_csv 5.

(** a file that starts with a date and has four columns only *)
Definition short_wellsfargo_csv : file := {|
  name := "short_wellsfargo.csv";
  parsed := [ [S_ "01/10/2023"; N (-724) 2; S_ "*"; S_ "Audible*8931J9V53 Amzn.com/billNJ"] ] |}.

(** a citi export with a blank description *)
Definition blank_citi_csv : file := {|
  name := "blank_citi.csv";
  parsed :=
    [ [S_ "Status"; S_ "Date"; S_ "Description"; S_ "Debit"; S_ "Credit"; S_ "Member Name"];
      [S_ "Cleared"; S_ "01/28/2023"; CNaN; S_ "14.52"; CNaN; S_ "BOB JHONES"] ] |}.

(** a discover export with an amount that is not a number *)
Definition bad_discover_csv : file := {|
  name := "bad_discover.csv";
  parsed :=
    [ [S_ "Trans. Date"; S_ "Post Date"; S_ "Description"; S_ "Amount"; S_ "Category"];
      [S_ "01/10/2022"; S_ "01/11/2022"; S_ "THE HOME DEPOT #0509 AUSTIN TX";
       S_ "abc"; S_ "Home Improvement"] ] |}.

(** a rule table whose second pattern this instance does not read *)
Definition broken_rules : list rule :=
  [ {| regex := "ALDI"; category := "food" |};
    {| regex := "("; category := "nothing" |};
    {| regex := "AMAZING THREADS"; category := "merchandise" |} ].

End Py.


(** ** Vocabulary of the statements *)

Section Vocabulary.

Context {L : PyLib}.

(** The cell of a row under the column called [s]. *)
Definition field (s : string) (cols : list label) (r : list cell) : cell :=
  hd CNaN (col_values (col s) cols r).

(** [c] is a number, a blank, or text that [pd.to_numeric] reads. *)
Definition parses (c : cell) : Prop :=
  exists c', to_numeric_cell c = Ok c'.

(** The number in a cell that parses, a blank counting as zero. *)
Definition number_or_zero (c : cell) : num :=
  match to_numeric_cell c with
  | Ok (CNum x) => x
  | _ => num_zero
  end.

(** The transaction a row stands for: its cells under Date, Amount and
    Description, wherever these columns sit. *)
Definition transaction_of (cols : list label) (r : list cell) : cell * cell * cell :=
  (field "Date" cols r, field "Amount" cols r, field "Description" cols r).

(** What [pd.to_numeric] makes of a cell that parses. *)
Definition as_number (c : cell) : cell :=
  match to_numeric_cell c with
  | Ok c' => c'
  | Raise _ => CNaN
  end.

(** The header of a citi export: the six names, the four that are read
    once each, and no Amount column yet. *)
Definition citi_header (cols : list label) : Prop :=
  count_label (col "Date") cols = 1 /\
  count_label (col "Description") cols = 1 /\
  count_label (col "Debit") cols = 1 /\
  count_label (col "Credit") cols = 1 /\
  has_label (col "Status") cols = true /\
  has_label (col "Member Name") cols = true /\
  has_label (col "Amount") cols = false.

(** The header of a discover export: the five names, the three that are
    kept once each, and no Date column yet. *)
Definition discover_header (cols : list label) : Prop :=
  count_label (col "Trans. Date") cols = 1 /\
  count_label (col "Description") cols = 1 /\
  count_label (col "Amount") cols = 1 /\
  has_label (col "Post Date") cols = true /\
  has_label (col "Category") cols = true /\
  has_label (col "Date") cols = false.

(** The columns a normalizer leaves: Date, Amount, Description, in the
    order of [normalize_citi] and [normalize_wellsfargo] or in the order of
    [normalize_discover]; a name the header row repeats is repeated. *)
Definition normal_columns (cs : list label) : Prop :=
  exists a b c,
    cs = repeat (col "Date") (S a) ++ repeat (col "Amount") (S b)
         ++ repeat (col "Description") (S c)
    \/ cs = repeat (col "Date") (S a) ++ repeat (col "Description") (S b)
            ++ repeat (col "Amount") (S c).

(** A citi table [normalize_citi] cannot digest: one of the six columns is
    not in the header row, or a Debit or Credit cell is text that is not a
    number. *)
Definition citi_malformed (df : DataFrame) : Prop :=
  exists hdr data,
    rows df = hdr :: data /\
    ((exists s,
         In s ["Status"; "Date"; "Description"; "Debit"; "Credit"; "Member Name"] /\
         has_label (col s) (map LVal hdr) = false)
     \/ (exists r,
            In r data /\
            (~ parses (field "Debit" (map LVal hdr) r) \/
             ~ parses (field "Credit" (map LVal hdr) r)))).

(** A discover table [normalize_discover] cannot digest: one of the other
    four columns is not in the header row, or an Amount cell is text that is
    not a number. *)
Definition discover_malformed (df : DataFrame) : Prop :=
  exists hdr data,
    rows df = hdr :: data /\
    ((exists s,
         In s ["Post Date"; "Description"; "Amount"; "Category"] /\
         has_label (col s) (map LVal hdr) = false)
     \/ (exists r, In r data /\ ~ parses (field "Amount" (map LVal hdr) r))).

(** Every row has one cell per column. *)
Definition rectangular (df : DataFrame) : Prop :=
  Forall (fun r => length r = length (columns df)) (rows df).

(** None of the three checks of [main] claims the file: its first cell is
    text, neither of the two header names, and not a date. *)
Definition unrecognized (f : file) : Prop :=
  exists df s,
    read_csv f = Ok df /\ first_cell df = Ok (CStr s) /\
    s <> "Status" /\ s <> "Trans. Date" /\ strptime_mdY s = false.

(** The frames the loop appends for a list of files, in file order. *)
Definition appended (f : file) : list DataFrame :=
  match loop_body f with
  | Append df => [df]
  | _ => []
  end.

(** The line the loop prints for a file, if any. *)
Definition printed_by (f : file) : list string :=
  match loop_body f with
  | Print line => [line]
  | _ => []
  end.

(** The files whose turn of the loop runs to its end: those before the first
    file at which an exception ends the loop, all of them when there is no
    such file. *)
Fixpoint completed (files : list file) : list file :=
  match files with
  | [] => []
  | f :: rest =>
      match loop_body f with
      | Abort _ => []
      | _ => f :: completed rest
      end
  end.

End Vocabulary.

(** * Properties *)

Unset Implicit Arguments.

Section Properties.

Context {L : PyLib}.

(** ** [lookup] *)

(** C1. [lookup] scans the table in order: it returns the category of the
    first rule whose pattern is found in the description, the rules before
    it having been searched without a match, and "unknown" when the whole
    table (possibly empty) has been searched without a match; and whenever
    it returns, it returns one of these two. *)
Theorem lookup_first_match (description : string) (lookups : list rule) :
  (forall pre r post,
      lookups = pre ++ r :: post ->
      Forall (fun q => re_search (regex q) description = Some false) pre ->
      re_search (regex r) description = Some true ->
      lookup description lookups = Ok (category r))
  /\ (Forall (fun q => re_search (regex q) description = Some false) lookups ->
      lookup description lookups = Ok "unknown")
  /\ (forall c,
      lookup description lookups = Ok c ->
      (exists pre r post,
          lookups = pre ++ r :: post /\
          Forall (fun q => re_search (regex q) description = Some false) pre /\
          re_search (regex r) description = Some true /\ c = category r)
      \/ (Forall (fun q => re_search (regex q) description = Some false) lookups
          /\ c = "unknown")).
Proof.
  repeat split.
  - intros pre r post -> Hpre Hr.
    induction Hpre as [|q pre Hq _ IH]; simpl.
    + now rewrite Hr.
    + now rewrite Hq.
  - intros Hall. induction Hall as [|q l Hq _ IH]; simpl; [reflexivity|].
    now rewrite Hq.
  - induction lookups as [|row rest IH]; simpl; intros c Hc.
    + right. split; [constructor | congruence].
    + destruct (re_search (regex row) description) as [[|]|] eqn:E; try discriminate.
      * left. exists [], row, rest. repeat split; auto. congruence.
      * destruct (IH c Hc) as [(pre & r & post & -> & Hpre & Hr & ->) | [Hall ->]].
        -- left. exists (row :: pre), r, post. repeat split; auto.
        -- right. split; auto.
Qed.

(** A table in which every pattern compiles always gets an answer. *)
Lemma lookup_total (description : string) (lookups : list rule) :
  Forall (fun q => re_search (regex q) description <> None) lookups ->
  exists c, lookup description lookups = Ok c.
Proof.
  induction 1 as [|q l Hq _ IH]; simpl; [eauto|].
  destruct (re_search (regex q) description) as [[|]|]; eauto; congruence.
Qed.

(** ** [normalize_wellsfargo] *)

(** C5. On a table of five positional columns, [normalize_wellsfargo] keeps
    every row, in order and with its row label, and makes of it the three
    cells at positions 0, 1 and 4 under the names Date, Amount,
    Description. *)
Theorem normalize_wellsfargo_positional (df : DataFrame) :
  columns df = map LPos (seq 0 5) ->
  Forall (fun r => length r = 5) (rows df) ->
  normalize_wellsfargo df =
  Ok {| columns := [col "Date"; col "Amount"; col "Description"];
        index := index df;
        rows := map (fun r => [nth 0 r CNaN; nth 1 r CNaN; nth 4 r CNaN]) (rows df) |}.
Proof.
  intros Hc Hr. unfold normalize_wellsfargo, drop_columns.
  rewrite Hc. simpl. unfold set_columns. simpl. do 2 f_equal.
  apply map_ext_in. intros r Hin.
  rewrite Forall_forall in Hr. specialize (Hr r Hin).
  destruct r as [|a [|b [|c [|d [|e [|? ?]]]]]]; try discriminate.
  reflexivity.
Qed.

(** ** The loop of [main] *)

Lemma main_loop_app (a b : list file) (printed : list string) (acc : list DataFrame) :
  main_loop (a ++ b) printed acc =
  match main_loop a printed acc with
  | (printed', Ok acc') => main_loop b printed' acc'
  | (printed', Raise e) => (printed', Raise e)
  end.
Proof.
  revert printed acc. induction a as [|f a IH]; intros printed acc; simpl.
  - reflexivity.
  - destruct (loop_body f); auto.
Qed.

(** A loop that ends normally has appended the frames of its files, in file
    order, behind what the accumulator held. *)
Lemma main_loop_ok (files : list file) (printed printed' : list string)
    (acc acc' : list DataFrame) :
  main_loop files printed acc = (printed', Ok acc') ->
  acc' = acc ++ flat_map appended files.
Proof.
  revert printed acc. induction files as [|f files IH]; intros printed acc; simpl.
  - intros [= _ <-]. now rewrite app_nil_r.
  - unfold appended at 1. destruct (loop_body f) as [df|line|e]; intros H.
    + apply IH in H. now rewrite H, <- app_assoc.
    + apply IH in H. exact H.
    + discriminate.
Qed.

(** What the loop does with a file whose first cell is text. *)
Lemma loop_body_text (f : file) (df : DataFrame) (s : string) :
  read_csv f = Ok df ->
  first_cell df = Ok (CStr s) ->
  loop_body f =
  if String.eqb "Status" s then
    match normalize_citi df with Ok d => Append d | Raise e => Abort e end
  else if String.eqb "Trans. Date" s then
    match normalize_discover df with Ok d => Append d | Raise e => Abort e end
  else if strptime_mdY s then
    match normalize_wellsfargo df with
    | Ok d => Append d
    | Raise e => if is_ValueError e then Print (unknown_format f) else Abort e
    end
  else Print (unknown_format f).
Proof.
  intros Hr Hc. unfold loop_body. rewrite Hr, Hc.
  unfold str_eq_cell, strptime, bind.
  destruct (String.eqb "Status" s); [reflexivity|].
  destruct (String.eqb "Trans. Date" s); [reflexivity|].
  destruct (strptime_mdY s); reflexivity.
Qed.

(** A first cell that is not text (a number, a blank) gets past the two
    comparisons and makes [strptime] raise a TypeError, which the handler
    does not catch. *)
Lemma loop_body_not_text (f : file) (df : DataFrame) (c : cell) :
  read_csv f = Ok df ->
  first_cell df = Ok c ->
  (forall s, c <> CStr s) ->
  loop_body f = Abort TypeError.
Proof.
  intros Hr Hc Hs. unfold loop_body. rewrite Hr, Hc.
  destruct c as [s| |]; [now destruct (Hs s) | reflexivity | reflexivity].
Qed.

Lemma unrecognized_printed (f : file) :
  unrecognized f -> loop_body f = Print (unknown_format f).
Proof.
  intros (df & s & Hr & Hc & H1 & H2 & H3).
  rewrite (loop_body_text _ _ _ Hr Hc), H3.
  apply String.eqb_neq in H1, H2.
  rewrite String.eqb_sym in H1. rewrite String.eqb_sym in H2.
  now rewrite H1, H2.
Qed.

(** An unrecognized file adds a line to the output, nothing to the
    accumulator, and the loop goes on with the files after it. *)
Lemma unrecognized_skipped (f : file) (rest : list file) (printed : list string)
    (acc : list DataFrame) :
  unrecognized f ->
  main_loop (f :: rest) printed acc = main_loop rest (printed ++ [unknown_format f]) acc.
Proof.
  intros H. simpl. now rewrite (unrecognized_printed _ H).
Qed.

Lemma main_loop_unrecognized (files : list file) (printed : list string)
    (acc : list DataFrame) :
  Forall unrecognized files ->
  main_loop files printed acc = (printed ++ map unknown_format files, Ok acc).
Proof.
  intros H. revert printed. induction H as [|f files Hf _ IH]; intros printed.
  - simpl. now rewrite app_nil_r.
  - rewrite (unrecognized_skipped _ _ _ _ Hf), IH. simpl. now rewrite <- app_assoc.
Qed.

(** C10. A run whose loop ends with an empty accumulator stops at
    [pd.concat] with a ValueError and writes nothing; in particular, when
    every file is unrecognized, the run prints one line per file and then
    stops there. *)
Theorem nothing_to_concatenate (lookup_df : list rule) (files : list file) :
  files <> [] ->
  (snd (main_loop files [] []) = Ok [] ->
   out_csv (main lookup_df files) = Raise ValueError)
  /\ (Forall unrecognized files ->
      main lookup_df files =
      {| stdout := map unknown_format files; out_csv := Raise ValueError |}).
Proof.
  intros Hne. destruct files as [|f files]; [congruence|]. split.
  - unfold main. destruct (main_loop (f :: files) [] []) as [printed r].
    simpl. now intros ->.
  - intros H. unfold main. now rewrite (main_loop_unrecognized _ [] [] H).
Qed.

(** ** Rows read with their labels *)

(** the test [under] on a pair whose label is in sight *)
Ltac head_label :=
  repeat match goal with
  | |- context [under ?l (?a, ?x)] => change (under l (a, x)) with (label_eqb l a)
  | H : context [under ?l (?a, ?x)] |- _ =>
      change (under l (a, x)) with (label_eqb l a) in H
  end.

Lemma label_eqb_col_l (s : string) (x : label) :
  label_eqb (col s) x = true <-> x = col s.
Proof.
  unfold col. destruct x as [n|[t|y|]]; simpl; split; try discriminate.
  - rewrite String.eqb_eq. now intros ->.
  - intros [= ->]. apply String.eqb_refl.
Qed.

Lemma label_eqb_col_r (s : string) (x : label) :
  label_eqb x (col s) = true <-> x = col s.
Proof.
  unfold col. destruct x as [n|[t|y|]]; simpl; split; try discriminate.
  - rewrite String.eqb_eq. now intros ->.
  - intros [= ->]. apply String.eqb_refl.
Qed.

Lemma label_eqb_cols (s t : string) :
  label_eqb (col s) (col t) = String.eqb s t.
Proof. reflexivity. Qed.

Lemma has_label_count (l : label) (cols : list label) :
  has_label l cols = false <-> count_label l cols = 0.
Proof.
  unfold has_label, count_label. induction cols as [|a cols IH]; simpl.
  - tauto.
  - destruct (label_eqb l a); simpl; [split; discriminate | exact IH].
Qed.

Lemma count_has_label (l : label) (cols : list label) (n : nat) :
  count_label l cols = S n -> has_label l cols = true.
Proof.
  intros H. destruct (has_label l cols) eqn:E; [reflexivity|].
  apply has_label_count in E. congruence.
Qed.

Lemma filter_col_repeat (s : string) (cols : list label) :
  filter (label_eqb (col s)) cols = repeat (col s) (count_label (col s) cols).
Proof.
  unfold count_label. induction cols as [|a cols IH]; [reflexivity|].
  cbn [filter]. destruct (label_eqb (col s) a) eqn:E; [|exact IH].
  apply label_eqb_col_l in E. subst a. cbn [length repeat]. now f_equal.
Qed.

Lemma combine_with_map {A B : Type} (h : A -> B) (l : list A) :
  combine l (map h l) = map (fun a => (a, h a)) l.
Proof. induction l as [|a l IH]; simpl; congruence. Qed.

Lemma combine_relabel (g : label * cell -> cell) (cols : list label) (r : list cell) :
  combine cols (map g (combine cols r)) = map (fun lc => (fst lc, g lc)) (combine cols r).
Proof.
  revert r. induction cols as [|a cols IH]; intros [|x r]; simpl; try reflexivity.
  now rewrite IH.
Qed.

Lemma combine_map_cells (f : cell -> cell) (cols : list label) (r : list cell) :
  combine cols (map f r) = map (fun lc => (fst lc, f (snd lc))) (combine cols r).
Proof.
  revert r. induction cols as [|a cols IH]; intros [|x r]; simpl; try reflexivity.
  now rewrite IH.
Qed.

Lemma under_relabel (l : label) (g : label * cell -> cell) (z : list (label * cell)) :
  filter (under l) (map (fun lc => (fst lc, g lc)) z) =
  map (fun lc => (fst lc, g lc)) (filter (under l) z).
Proof.
  induction z as [|lc z IH]; simpl; [reflexivity|].
  change (under l (fst lc, g lc)) with (under l lc).
  destruct (under l lc); simpl; now rewrite IH.
Qed.

Lemma col_values_relabel (l : label) (g : label * cell -> cell) (cols : list label)
    (r : list cell) :
  col_values l cols (map g (combine cols r)) = map g (filter (under l) (combine cols r)).
Proof.
  unfold col_values. now rewrite combine_relabel, under_relabel, map_map.
Qed.

Lemma col_values_map (l : label) (f : cell -> cell) (cols : list label) (r : list cell) :
  col_values l cols (map f r) = map f (col_values l cols r).
Proof.
  unfold col_values. now rewrite combine_map_cells, under_relabel, !map_map.
Qed.

(** Writing a column leaves the cells of every other column alone. *)
Lemma col_values_set_other (l l' : label) (cols : list label) (r : list cell) (v : cell) :
  has_label l' cols = true ->
  (forall x, label_eqb l x = true -> label_eqb l' x = false) ->
  col_values l cols (set_row l' cols r v) = col_values l cols r.
Proof.
  intros Hh Hd. unfold set_row. rewrite Hh, col_values_relabel.
  unfold col_values. apply map_ext_in. intros lc Hin.
  apply filter_In in Hin. destruct Hin as [_ Hu].
  unfold under in *. now rewrite (Hd _ Hu).
Qed.

Lemma col_values_set_same (l : label) (cols : list label) (r : list cell) (v : cell) :
  has_label l cols = true ->
  col_values l cols (set_row l cols r v) = map (fun _ => v) (col_values l cols r).
Proof.
  intros Hh. unfold set_row. rewrite Hh, col_values_relabel.
  unfold col_values. rewrite map_map. apply map_ext_in. intros lc Hin.
  apply filter_In in Hin. destruct Hin as [_ Hu]. now rewrite Hu.
Qed.

Lemma col_values_length (l : label) (cols : list label) (r : list cell) :
  length cols <= length r ->
  length (col_values l cols r) = count_label l cols.
Proof.
  unfold col_values, count_label.
  revert r. induction cols as [|a cols IH]; intros [|x r] H; simpl in *;
    try reflexivity; try lia.
  head_label. destruct (label_eqb l a); simpl; rewrite IH; auto; lia.
Qed.

Lemma col_values_single (l : label) (cols : list label) (r : list cell) :
  count_label l cols = 1 ->
  length cols <= length r ->
  col_values l cols r = [hd CNaN (col_values l cols r)].
Proof.
  intros Hc Hl. pose proof (col_values_length l cols r Hl) as H.
  rewrite Hc in H. destruct (col_values l cols r) as [|x [|y t]]; try discriminate.
  reflexivity.
Qed.

Lemma col_values_absent (l : label) (cols : list label) (r : list cell) :
  has_label l cols = false -> col_values l cols r = [].
Proof.
  unfold has_label, col_values.
  revert r. induction cols as [|a cols IH]; intros [|x r] H; simpl in *; try reflexivity.
  head_label. apply orb_false_iff in H. destruct H as [-> H]. auto.
Qed.

Lemma col_values_app (l : label) (cols cols' : list label) (r r' : list cell) :
  length r = length cols ->
  col_values l (cols ++ cols') (r ++ r') = col_values l cols r ++ col_values l cols' r'.
Proof.
  unfold col_values.
  revert r. induction cols as [|a cols IH]; intros [|x r] H; simpl in *;
    try reflexivity; try discriminate.
  head_label. destruct (label_eqb l a); simpl; rewrite IH; auto.
Qed.

Lemma col_values_nil (l : label) (cols : list label) :
  col_values l cols [] = [].
Proof. unfold col_values. now rewrite combine_nil. Qed.

(** Dropping columns leaves the cells of every column that stays alone. *)
Lemma col_values_drop (l : label) (ls cols : list label) (r : list cell) :
  (forall x, label_eqb l x = true -> kept ls x = true) ->
  col_values l (filter (kept ls) cols) (drop_row ls cols r) = col_values l cols r.
Proof.
  intros Hk. unfold drop_row.
  revert r. induction cols as [|a cols IH]; intros [|x r]; simpl.
  - reflexivity.
  - reflexivity.
  - now rewrite !col_values_nil.
  - destruct (kept ls a) eqn:Ea; simpl.
    + unfold col_values in *. simpl. head_label.
      destruct (label_eqb l a); simpl; now rewrite IH.
    + rewrite IH. unfold col_values. simpl. head_label.
      destruct (label_eqb l a) eqn:El; [|reflexivity].
      apply Hk in El. congruence.
Qed.

Lemma set_row_absent (l : label) (cols : list label) (r : list cell) (v : cell) :
  has_label l cols = false -> set_row l cols r v = r ++ [v].
Proof. intros H. unfold set_row. now rewrite H. Qed.

Lemma set_row_length (l : label) (cols : list label) (r : list cell) (v : cell) :
  length r = length cols ->
  length (set_row l cols r v) =
  length (if has_label l cols then cols else cols ++ [l]).
Proof.
  intros H. unfold set_row. destruct (has_label l cols).
  - rewrite length_map, length_combine. lia.
  - rewrite !length_app. simpl. lia.
Qed.

Lemma drop_row_length (ls cols : list label) (r : list cell) :
  length r = length cols ->
  length (drop_row ls cols r) = length (filter (kept ls) cols).
Proof.
  unfold drop_row. revert r.
  induction cols as [|a cols IH]; intros [|x r] H; simpl in *;
    try reflexivity; try discriminate.
  destruct (kept ls a); simpl; rewrite IH; auto.
Qed.

Lemma select_row_length (ls cols : list label) (r : list cell) :
  length r = length cols ->
  length (select_row ls cols r) =
  length (flat_map (fun l => filter (label_eqb l) cols) ls).
Proof.
  intros H. unfold select_row. induction ls as [|l ls IH]; simpl; [reflexivity|].
  rewrite !length_app, IH. f_equal.
  rewrite col_values_length by lia. reflexivity.
Qed.

(** ** Frames whose rows are computed row by row *)

Lemma combine_maps {A B C : Type} (f : A -> B) (g : A -> C) (l : list A) :
  combine (map f l) (map g l) = map (fun a => (f a, g a)) l.
Proof. induction l as [|a l IH]; simpl; congruence. Qed.

Lemma mapM_rowwise {A B : Type} (f : A -> result B) (g : A -> B) (l : list A) :
  Forall (fun a => f a = Ok (g a)) l -> mapM f l = Ok (map g l).
Proof.
  induction 1 as [|a l Ha _ IH]; simpl; [reflexivity|]. now rewrite Ha, IH.
Qed.

Lemma getitem_rowwise {A : Type} (F : A -> list cell) (cols : list label)
    (i : list nat) (data : list A) (l : label) :
  count_label l cols = 1 ->
  getitem {| columns := cols; index := i; rows := map F data |} l =
  Ok (map (fun r => hd CNaN (col_values l cols (F r))) data).
Proof.
  intros H. unfold getitem. simpl. now rewrite H, map_map.
Qed.

Lemma to_numeric_rowwise {A : Type} (h : A -> cell) (data : list A) :
  Forall (fun r => parses (h r)) data ->
  to_numeric (map h data) = Ok (map (fun r => as_number (h r)) data).
Proof.
  intros H. unfold to_numeric. rewrite <- (map_map h as_number).
  apply mapM_rowwise. apply Forall_map.
  eapply Forall_impl; [|exact H]. intros r [c Hc]. unfold as_number. now rewrite Hc.
Qed.

Lemma setitem_rowwise {A : Type} (F : A -> list cell) (g : A -> cell)
    (cols : list label) (i : list nat) (data : list A) (l : label) :
  setitem {| columns := cols; index := i; rows := map F data |} l (map g data) =
  {| columns := if has_label l cols then cols else cols ++ [l];
     index := i;
     rows := map (fun r => set_row l cols (F r) (g r)) data |}.
Proof.
  unfold setitem. simpl. now rewrite combine_maps, map_map.
Qed.

Lemma series_add_rowwise {A : Type} (h1 h2 g : A -> cell) (data : list A) :
  Forall (fun r => add_cell (h1 r) (h2 r) = Ok (g r)) data ->
  series_add (map h1 data) (map h2 data) = Ok (map g data).
Proof.
  intros H. unfold series_add. rewrite combine_maps.
  induction H as [|r data Hr _ IH]; simpl; [reflexivity|].
  now rewrite Hr, IH.
Qed.

Lemma fill0_as_number (c : cell) :
  parses c -> fill0 (as_number c) = CNum (number_or_zero c).
Proof.
  intros [c' Hc]. unfold as_number, number_or_zero. rewrite Hc.
  destruct c as [s|x|]; simpl in Hc.
  - destruct (to_numeric_str s); [|discriminate]. now injection Hc as <-.
  - now injection Hc as <-.
  - now injection Hc as <-.
Qed.

Lemma distinct_cols (s t : string) :
  String.eqb t s = false ->
  forall x, label_eqb (col s) x = true -> label_eqb (col t) x = false.
Proof.
  intros H x Hx. apply label_eqb_col_l in Hx. now subst x.
Qed.

Lemma kept_col (ls : list label) (s : string) :
  kept ls (col s) = true ->
  forall x, label_eqb (col s) x = true -> kept ls x = true.
Proof.
  intros H x Hx. apply label_eqb_col_l in Hx. now subst x.
Qed.

Lemma getitem_plain (cols : list label) (i : list nat) (data : list (list cell))
    (l : label) :
  count_label l cols = 1 ->
  getitem {| columns := cols; index := i; rows := data |} l =
  Ok (map (fun r => hd CNaN (col_values l cols r)) data).
Proof.
  intros H. pose proof (getitem_rowwise (fun r => r) cols i data l H) as G.
  now rewrite map_id in G.
Qed.

Lemma setitem_plain (g : list cell -> cell) (cols : list label) (i : list nat)
    (data : list (list cell)) (l : label) :
  setitem {| columns := cols; index := i; rows := data |} l (map g data) =
  {| columns := if has_label l cols then cols else cols ++ [l];
     index := i;
     rows := map (fun r => set_row l cols r (g r)) data |}.
Proof.
  pose proof (setitem_rowwise (fun r => r) g cols i data l) as G.
  now rewrite map_id in G.
Qed.

Lemma has_label_app (l : label) (a b : list label) :
  has_label l (a ++ b) = has_label l a || has_label l b.
Proof. apply existsb_app. Qed.

Lemma count_label_app (l : label) (a b : list label) :
  count_label l (a ++ b) = count_label l a + count_label l b.
Proof. unfold count_label. now rewrite filter_app, length_app. Qed.

Lemma count_label_kept (ls cols : list label) (s : string) :
  kept ls (col s) = true ->
  count_label (col s) (filter (kept ls) cols) = count_label (col s) cols.
Proof.
  intros Hk. unfold count_label.
  induction cols as [|a cols IH]; [reflexivity|].
  cbn [filter]. destruct (label_eqb (col s) a) eqn:E.
  - apply label_eqb_col_l in E. subst a. rewrite Hk. cbn [filter].
    rewrite (proj2 (label_eqb_col_l s (col s)) eq_refl). cbn [length]. now rewrite IH.
  - destruct (kept ls a); [|exact IH]. cbn [filter]. now rewrite E.
Qed.

Lemma has_label_kept (ls cols : list label) (s : string) :
  kept ls (col s) = true ->
  has_label (col s) (filter (kept ls) cols) = has_label (col s) cols.
Proof.
  intros Hk.
  destruct (has_label (col s) cols) eqn:E.
  - destruct (has_label (col s) (filter (kept ls) cols)) eqn:F; [reflexivity|].
    apply has_label_count in F. rewrite count_label_kept in F by exact Hk.
    apply has_label_count in F. congruence.
  - apply has_label_count. rewrite count_label_kept by exact Hk.
    now apply has_label_count.
Qed.

(** ** [normalize_citi] *)

(** One row of a citi export on its way through [normalize_citi], up to
    [fillna]: the two numeric columns hold numbers, the other cells are
    the cells read, blanks filled. *)
Lemma citi_row (cols : list label) (r : list cell) :
  citi_header cols ->
  length r = length cols ->
  parses (field "Debit" cols r) ->
  parses (field "Credit" cols r) ->
  let r1 := set_row (col "Debit") cols r
              (as_number (hd CNaN (col_values (col "Debit") cols r))) in
  let r2 := set_row (col "Credit") cols r1
              (as_number (hd CNaN (col_values (col "Credit") cols r1))) in
  let r3 := map fill0 r2 in
  length r3 = length cols /\
  col_values (col "Credit") cols r3 = [CNum (number_or_zero (field "Credit" cols r))] /\
  col_values (col "Debit") cols r3 = [CNum (number_or_zero (field "Debit" cols r))] /\
  col_values (col "Date") cols r3 = [fill0 (field "Date" cols r)] /\
  col_values (col "Description") cols r3 = [fill0 (field "Description" cols r)].
Proof.
  intros (HDa & HDe & HDb & HCr & _ & _ & _) Hlen Hpd Hpc r1 r2 r3.
  assert (HhD : has_label (col "Debit") cols = true) by (eapply count_has_label; eauto).
  assert (HhC : has_label (col "Credit") cols = true) by (eapply count_has_label; eauto).
  assert (Hl1 : length r1 = length cols).
  { unfold r1. rewrite set_row_length by exact Hlen. now rewrite HhD. }
  assert (Hl2 : length r2 = length cols).
  { unfold r2. rewrite set_row_length by exact Hl1. now rewrite HhC. }
  assert (Hother : forall s,
             String.eqb "Debit" s = false -> String.eqb "Credit" s = false ->
             col_values (col s) cols r3 = map fill0 (col_values (col s) cols r)).
  { intros s H1 H2. unfold r3, r2, r1.
    rewrite col_values_map.
    rewrite col_values_set_other. 2: exact HhC. 2: now apply distinct_cols.
    rewrite col_values_set_other. 2: exact HhD. 2: now apply distinct_cols.
    reflexivity. }
  assert (Hc1 : col_values (col "Credit") cols r1 = col_values (col "Credit") cols r).
  { unfold r1. apply col_values_set_other; [exact HhD|].
    apply distinct_cols. reflexivity. }
  repeat split.
  - unfold r3. now rewrite length_map.
  - unfold r3, r2. rewrite col_values_map, col_values_set_same by exact HhC.
    rewrite Hc1, (col_values_single _ _ _ HCr) by lia.
    simpl. now rewrite fill0_as_number.
  - unfold r3, r2. rewrite col_values_map.
    rewrite col_values_set_other. 2: exact HhC. 2: now apply distinct_cols.
    unfold r1. rewrite col_values_set_same by exact HhD.
    rewrite (col_values_single _ _ _ HDb) by lia.
    simpl. now rewrite fill0_as_number.
  - rewrite Hother by reflexivity.
    now rewrite (col_values_single _ _ _ HDa) by lia.
  - rewrite Hother by reflexivity.
    now rewrite (col_values_single _ _ _ HDe) by lia.
Qed.

(** C3. On a citi table (row 0 the header, the rows below it the data, the
    Debit and Credit cells numbers, blanks or text that parses),
    [normalize_citi] drops row 0, keeps the data rows in order with their row
    labels, and makes of each the three cells Date, Amount, Description,
    where Amount is Credit + Debit with a blank counted as 0. *)
Theorem normalize_citi_format_a (df : DataFrame) (hdr : list cell)
    (data : list (list cell)) :
  rows df = hdr :: data ->
  length (columns df) = length hdr ->
  Forall (fun r => length r = length hdr) data ->
  citi_header (map LVal hdr) ->
  Forall (fun r => parses (field "Debit" (map LVal hdr) r) /\
                   parses (field "Credit" (map LVal hdr) r)) data ->
  normalize_citi df =
  Ok {| columns := [col "Date"; col "Amount"; col "Description"];
        index := tl (index df);
        rows := map (fun r =>
                       [ fill0 (field "Date" (map LVal hdr) r);
                         CNum (num_add (number_or_zero (field "Credit" (map LVal hdr) r))
                                       (number_or_zero (field "Debit" (map LVal hdr) r)));
                         fill0 (field "Description" (map LVal hdr) r) ]) data |}.
Proof.
  intros Hrows Hw Hrect Hh Hp.
  assert (Hrect' : Forall (fun r => length r = length (map LVal hdr)) data)
    by (now rewrite length_map).
  clear Hrect. remember (map LVal hdr) as cols eqn:Ecols.
  pose proof Hh as (HDa & HDe & HDb & HCr & HSt & HMn & HAm).
  assert (HhD : has_label (col "Debit") cols = true) by (eapply count_has_label; eauto).
  assert (HhC : has_label (col "Credit") cols = true) by (eapply count_has_label; eauto).
  unfold normalize_citi, iloc0. rewrite Hrows. cbn [bind].
  unfold set_columns. rewrite <- Ecols.
  replace (length cols) with (length (columns df)) by (now rewrite Ecols, length_map).
  rewrite Nat.eqb_refl. cbn [bind].
  unfold tail_rows. cbn [columns index rows]. rewrite Hrows. cbn [tl].
  (* Debit *)
  rewrite getitem_plain by exact HDb. cbn [bind].
  rewrite to_numeric_rowwise.
  2:{ eapply Forall_impl; [|exact Hp]. intros r [H _]. exact H. }
  cbn [bind]. rewrite setitem_plain, HhD.
  (* Credit *)
  rewrite getitem_rowwise by exact HCr. cbn [bind].
  rewrite to_numeric_rowwise.
  2:{ eapply Forall_impl; [|exact Hp]. intros r [_ H].
      rewrite col_values_set_other; [exact H | exact HhD | now apply distinct_cols]. }
  cbn [bind]. rewrite setitem_rowwise, HhC.
  (* fillna, Amount *)
  unfold fillna0. cbn [columns index rows]. rewrite map_map.
  rewrite !getitem_rowwise by assumption. cbn [bind].
  rewrite (series_add_rowwise _ _
             (fun r => CNum (num_add (number_or_zero (field "Credit" cols r))
                                     (number_or_zero (field "Debit" cols r))))).
  2:{ rewrite Forall_forall in Hp, Hrect' |- *. intros r Hin.
      destruct (Hp r Hin) as [Hpd Hpc].
      destruct (@citi_row cols r Hh (Hrect' r Hin) Hpd Hpc) as (_ & -> & -> & _).
      reflexivity. }
  cbn [bind]. rewrite setitem_rowwise, HAm.
  (* drop, select *)
  assert (HhDa : has_label (col "Date") cols = true) by (eapply count_has_label; eauto).
  assert (HhDe : has_label (col "Description") cols = true)
    by (eapply count_has_label; eauto).
  unfold drop_columns. cbn [columns index rows forallb].
  rewrite !has_label_app, HSt, HMn, HhD, HhC. cbn [orb andb bind].
  unfold select_columns. cbn [columns index rows forallb].
  rewrite !has_label_kept by reflexivity.
  rewrite !has_label_app, HhDa, HhDe, HAm.
  change (has_label (col "Amount") [col "Amount"]) with true. cbn [orb andb].
  f_equal. f_equal.
  - cbn [flat_map].
    rewrite !filter_col_repeat, !count_label_kept by reflexivity.
    rewrite !count_label_app, HDa, HDe, (proj1 (has_label_count _ _) HAm).
    reflexivity.
  - rewrite !map_map. apply map_ext_in. intros r Hin.
    rewrite Forall_forall in Hp, Hrect'. destruct (Hp r Hin) as [Hpd Hpc].
    destruct (@citi_row cols r Hh (Hrect' r Hin) Hpd Hpc) as (Hl & _ & _ & HD' & HDe').
    unfold select_row. cbn [flat_map].
    rewrite !col_values_drop by (apply kept_col; reflexivity).
    rewrite !set_row_absent by exact HAm.
    rewrite !col_values_app by exact Hl.
    rewrite HD', HDe', (col_values_absent _ _ _ HAm).
    reflexivity.
Qed.

(** ** [normalize_discover] *)

Lemma col_values_relabel_cols (f : label -> label) (l l' : label) (cols : list label)
    (r : list cell) :
  (forall c, In c cols -> label_eqb l (f c) = label_eqb l' c) ->
  col_values l (map f cols) r = col_values l' cols r.
Proof.
  unfold col_values. revert r.
  induction cols as [|a cols IH]; intros [|x r] H; simpl; try reflexivity.
  head_label. rewrite (H a) by (now left).
  destruct (label_eqb l' a); simpl; rewrite IH; auto; intros c Hc; apply H; now right.
Qed.

Lemma count_label_map (f : label -> label) (l l' : label) (cols : list label) :
  (forall c, In c cols -> label_eqb l (f c) = label_eqb l' c) ->
  count_label l (map f cols) = count_label l' cols.
Proof.
  unfold count_label. induction cols as [|a cols IH]; intros H; simpl; [reflexivity|].
  rewrite (H a) by (now left).
  destruct (label_eqb l' a); simpl; rewrite IH; auto; intros c Hc; apply H; now right.
Qed.

Lemma has_label_false_in (l : label) (cols : list label) :
  has_label l cols = false -> forall c, In c cols -> label_eqb l c = false.
Proof.
  unfold has_label. intros H c Hc.
  destruct (label_eqb l c) eqn:E; [|reflexivity].
  assert (existsb (label_eqb l) cols = true) by (apply existsb_exists; eauto).
  congruence.
Qed.

(** Renaming [old] to [new], a name no column has yet: the cells under
    [new] are those that were under [old]. *)
Lemma rename_new (o n : string) (cols : list label) :
  has_label (col n) cols = false ->
  forall c, In c cols ->
    label_eqb (col n) (if label_eqb (col o) c then col n else c) = label_eqb (col o) c.
Proof.
  intros H c Hc. destruct (label_eqb (col o) c) eqn:E.
  - apply label_eqb_col_l. reflexivity.
  - now apply has_label_false_in with (cols := cols).
Qed.

(** ... and the cells under any other name stay where they were. *)
Lemma rename_other (o n s : string) (c : label) :
  String.eqb s o = false -> String.eqb s n = false ->
  label_eqb (col s) (if label_eqb (col o) c then col n else c) = label_eqb (col s) c.
Proof.
  intros Ho Hn. destruct (label_eqb (col o) c) eqn:E; [|reflexivity].
  apply label_eqb_col_l in E. subst c. rewrite !label_eqb_cols. congruence.
Qed.

(** One row of a discover export after [drop], [rename] and the selection of
    the three columns. *)
Lemma discover_row (cols : list label) (r : list cell) :
  discover_header cols ->
  length r = length cols ->
  let ls := [col "Post Date"; col "Category"] in
  let cols' := map (fun c => if label_eqb (col "Trans. Date") c then col "Date" else c)
                   (filter (kept ls) cols) in
  select_row [col "Date"; col "Description"; col "Amount"] cols' (drop_row ls cols r) =
  [field "Trans. Date" cols r; field "Description" cols r; field "Amount" cols r].
Proof.
  intros (HTd & HDe & HAm & _ & _ & HDa) Hlen ls cols'.
  assert (HDa' : has_label (col "Date") (filter (kept ls) cols) = false)
    by (now rewrite has_label_kept).
  unfold select_row, cols'. cbn [flat_map].
  rewrite (col_values_relabel_cols _ (col "Date") (col "Trans. Date"))
    by (now apply rename_new).
  rewrite (col_values_relabel_cols _ (col "Description") (col "Description"))
    by (intros; now apply rename_other).
  rewrite (col_values_relabel_cols _ (col "Amount") (col "Amount"))
    by (intros; now apply rename_other).
  rewrite !col_values_drop by (apply kept_col; reflexivity).
  rewrite (col_values_single _ _ _ HTd), (col_values_single _ _ _ HDe),
    (col_values_single _ _ _ HAm) by lia.
  reflexivity.
Qed.

(** C4, as the code has it.  On a discover table (row 0 the header, the rows
    below it the data, the Amount cells numbers, blanks or text that
    parses), [normalize_discover] drops row 0, keeps the data rows in order
    with their row labels, and makes of each the three cells Date (the
    Trans. Date of the export), Description, Amount (as a number), in this
    order. *)
Theorem normalize_discover_format_b (df : DataFrame) (hdr : list cell)
    (data : list (list cell)) :
  rows df = hdr :: data ->
  length (columns df) = length hdr ->
  Forall (fun r => length r = length hdr) data ->
  discover_header (map LVal hdr) ->
  Forall (fun r => parses (field "Amount" (map LVal hdr) r)) data ->
  normalize_discover df =
  Ok {| columns := [col "Date"; col "Description"; col "Amount"];
        index := tl (index df);
        rows := map (fun r =>
                       [ field "Trans. Date" (map LVal hdr) r;
                         field "Description" (map LVal hdr) r;
                         as_number (field "Amount" (map LVal hdr) r) ]) data |}.
Proof.
  intros Hrows Hw Hrect Hh Hp.
  assert (Hrect' : Forall (fun r => length r = length (map LVal hdr)) data)
    by (now rewrite length_map).
  clear Hrect. remember (map LVal hdr) as cols eqn:Ecols.
  pose proof Hh as (HTd & HDe & HAm & HPd & HCa & HDa).
  unfold normalize_discover, iloc0. rewrite Hrows. cbn [bind].
  unfold set_columns. rewrite <- Ecols.
  replace (length cols) with (length (columns df)) by (now rewrite Ecols, length_map).
  rewrite Nat.eqb_refl. cbn [bind].
  unfold tail_rows. cbn [columns index rows]. rewrite Hrows. cbn [tl].
  (* drop, rename, select *)
  unfold drop_columns. cbn [columns index rows forallb].
  rewrite HPd, HCa. cbn [andb bind].
  unfold rename_column, select_columns. cbn [columns index rows forallb].
  set (ls := [col "Post Date"; col "Category"]).
  set (ren := fun c => if label_eqb (col "Trans. Date") c then col "Date" else c).
  assert (HDa' : has_label (col "Date") (filter (kept ls) cols) = false)
    by (now rewrite has_label_kept).
  assert (C1 : count_label (col "Date") (map ren (filter (kept ls) cols)) = 1).
  { rewrite (count_label_map ren _ (col "Trans. Date")) by (now apply rename_new).
    now rewrite count_label_kept. }
  assert (C2 : count_label (col "Description") (map ren (filter (kept ls) cols)) = 1).
  { rewrite (count_label_map ren _ (col "Description"))
      by (intros; now apply rename_other).
    now rewrite count_label_kept. }
  assert (C3 : count_label (col "Amount") (map ren (filter (kept ls) cols)) = 1).
  { rewrite (count_label_map ren _ (col "Amount"))
      by (intros; now apply rename_other).
    now rewrite count_label_kept. }
  rewrite (count_has_label _ _ _ C1), (count_has_label _ _ _ C2),
    (count_has_label _ _ _ C3).
  cbn [andb bind flat_map].
  rewrite !filter_col_repeat, C1, C2, C3. cbn [repeat app].
  rewrite map_map.
  rewrite (map_ext_in _ (fun r => [ field "Trans. Date" cols r;
                                    field "Description" cols r;
                                    field "Amount" cols r ])).
  2:{ intros r Hin. rewrite Forall_forall in Hrect'.
      apply (discover_row cols r Hh (Hrect' r Hin)). }
  (* Amount *)
  rewrite getitem_rowwise by reflexivity. cbn [bind].
  rewrite to_numeric_rowwise.
  2:{ eapply Forall_impl; [|exact Hp]. intros r H. exact H. }
  cbn [bind]. rewrite setitem_rowwise. reflexivity.
Qed.

(** ** What a normalizer that returns has checked *)

Lemma bind_ok {A B : Type} (r : result A) (k : A -> result B) (b : B) :
  bind r k = Ok b -> exists a, r = Ok a /\ k a = Ok b.
Proof. destruct r as [a|e]; simpl; [eauto | discriminate]. Qed.

Lemma mapM_ok_rowwise {A B C : Type} (f : B -> result C) (h : A -> B) (dflt : C)
    (data : list A) (out : list C) :
  mapM f (map h data) = Ok out ->
  Forall (fun r => exists c, f (h r) = Ok c) data /\
  out = map (fun r => match f (h r) with Ok c => c | Raise _ => dflt end) data.
Proof.
  revert out. induction data as [|r data IH]; simpl; intros out H.
  - injection H as <-. split; [constructor | reflexivity].
  - destruct (f (h r)) as [c|e] eqn:E; [|discriminate]. simpl in H.
    destruct (mapM f (map h data)) as [cs|e]; [|discriminate].
    injection H as <-. destruct (IH cs eq_refl) as [IH1 IH2].
    split; [constructor; eauto | now rewrite IH2].
Qed.

Lemma getitem_ok (df : DataFrame) (l : label) (v : list cell) :
  getitem df l = Ok v ->
  count_label l (columns df) = 1 /\
  v = map (fun r => hd CNaN (col_values l (columns df) r)) (rows df).
Proof.
  unfold getitem. destruct (count_label l (columns df)) as [|[|n]]; try discriminate.
  now intros [= <-].
Qed.

Lemma to_numeric_ok {A : Type} (h : A -> cell) (data : list A) (w : list cell) :
  to_numeric (map h data) = Ok w ->
  Forall (fun r => parses (h r)) data /\ w = map (fun r => as_number (h r)) data.
Proof.
  intros H. apply (mapM_ok_rowwise to_numeric_cell h CNaN) in H.
  destruct H as [H1 H2]. split; [exact H1 | exact H2].
Qed.

Lemma series_add_ok {A : Type} (h1 h2 : A -> cell) (data : list A) (w : list cell) :
  series_add (map h1 data) (map h2 data) = Ok w ->
  exists g, w = map g data.
Proof.
  unfold series_add. rewrite combine_maps. intros H.
  apply (mapM_ok_rowwise (fun ab => add_cell (fst ab) (snd ab))
           (fun r => (h1 r, h2 r)) CNaN) in H.
  destruct H as [_ H]. eauto.
Qed.

Lemma has_label_with (s t : string) (cols : list label) :
  String.eqb s t = false ->
  has_label (col s) (if has_label (col t) cols then cols else cols ++ [col t]) =
  has_label (col s) cols.
Proof.
  intros H. destruct (has_label (col t) cols); [reflexivity|].
  rewrite has_label_app. unfold has_label at 2. cbn [existsb].
  rewrite label_eqb_cols, H. now rewrite !orb_false_r.
Qed.

Lemma has_label_positive (l : label) (cols : list label) :
  has_label l cols = true -> exists n, count_label l cols = S n.
Proof.
  intros H. destruct (count_label l cols) as [|n] eqn:E; [|eauto].
  apply has_label_count in E. congruence.
Qed.

(** The columns after [df[[x, y, z]]]. *)
Lemma select_three (cols : list label) (x y z : string) :
  forallb (fun l => has_label l cols) [col x; col y; col z] = true ->
  exists a b c,
    count_label (col x) cols = S a /\
    count_label (col y) cols = S b /\
    count_label (col z) cols = S c /\
    flat_map (fun l => filter (label_eqb l) cols) [col x; col y; col z] =
    repeat (col x) (S a) ++ repeat (col y) (S b) ++ repeat (col z) (S c).
Proof.
  cbn [forallb]. rewrite !andb_true_iff. intros (Hx & Hy & Hz & _).
  destruct (has_label_positive _ _ Hx) as [a Ha].
  destruct (has_label_positive _ _ Hy) as [b Hb].
  destruct (has_label_positive _ _ Hz) as [c Hc].
  exists a, b, c. repeat split; auto. cbn [flat_map].
  now rewrite !filter_col_repeat, Ha, Hb, Hc, app_nil_r.
Qed.

(** ** Rectangular frames *)

Lemma rectangular_setitem (df : DataFrame) (l : label) (vals : list cell) :
  rectangular df -> rectangular (setitem df l vals).
Proof.
  unfold rectangular, setitem. cbn [columns rows]. intros H.
  apply Forall_map. rewrite Forall_forall in H |- *. intros [r v] Hin.
  apply in_combine_l in Hin. cbn [fst snd].
  apply set_row_length. now apply H.
Qed.

Lemma rectangular_fillna0 (df : DataFrame) :
  rectangular df -> rectangular (fillna0 df).
Proof.
  unfold rectangular, fillna0. cbn [columns rows]. intros H.
  apply Forall_map. eapply Forall_impl; [|exact H].
  intros r Hr. now rewrite length_map.
Qed.

Lemma rectangular_tail (df : DataFrame) :
  rectangular df -> rectangular (tail_rows df).
Proof.
  unfold rectangular, tail_rows. cbn [columns rows]. intros H.
  destruct (rows df) as [|r rs]; [constructor|]. now inversion H.
Qed.

Lemma drop_columns_ok (df d : DataFrame) (ls : list label) :
  drop_columns df ls = Ok d ->
  forallb (fun l => has_label l (columns df)) ls = true /\
  columns d = filter (kept ls) (columns df) /\
  index d = index df /\
  rows d = map (drop_row ls (columns df)) (rows df) /\
  (rectangular df -> rectangular d).
Proof.
  unfold drop_columns. destruct (forallb _ ls); [|discriminate].
  intros [= <-]. cbn [columns index rows]. repeat split.
  unfold rectangular. cbn [columns rows]. intros H.
  apply Forall_map. eapply Forall_impl; [|exact H].
  intros r Hr. now apply drop_row_length.
Qed.

Lemma select_columns_ok (df d : DataFrame) (ls : list label) :
  select_columns df ls = Ok d ->
  forallb (fun l => has_label l (columns df)) ls = true /\
  columns d = flat_map (fun l => filter (label_eqb l) (columns df)) ls /\
  index d = index df /\
  rows d = map (select_row ls (columns df)) (rows df) /\
  (rectangular df -> rectangular d).
Proof.
  unfold select_columns. destruct (forallb _ ls); [|discriminate].
  intros [= <-]. cbn [columns index rows]. repeat split.
  unfold rectangular. cbn [columns rows]. intros H.
  apply Forall_map. eapply Forall_impl; [|exact H].
  intros r Hr. now apply select_row_length.
Qed.

Lemma set_columns_ok (df d : DataFrame) (ls : list label) :
  set_columns df ls = Ok d ->
  length ls = length (columns df) /\
  d = {| columns := ls; index := index df; rows := rows df |} /\
  (rectangular df -> rectangular d).
Proof.
  unfold set_columns. destruct (Nat.eqb (length ls) (length (columns df))) eqn:E;
    [|discriminate].
  apply Nat.eqb_eq in E. intros [= <-]. repeat split; [exact E|].
  unfold rectangular. cbn [columns rows]. now rewrite E.
Qed.

Lemma normalize_citi_ok (df d : DataFrame) :
  normalize_citi df = Ok d ->
  exists hdr data,
    rows df = hdr :: data /\
    count_label (col "Debit") (map LVal hdr) = 1 /\
    count_label (col "Credit") (map LVal hdr) = 1 /\
    forallb (fun s => has_label (col s) (map LVal hdr))
            ["Status"; "Member Name"; "Date"; "Description"] = true /\
    Forall (fun r => parses (field "Debit" (map LVal hdr) r) /\
                     parses (field "Credit" (map LVal hdr) r)) data /\
    normal_columns (columns d) /\
    (rectangular df -> rectangular d).
Proof.
  intros H. unfold normalize_citi in H.
  apply bind_ok in H. destruct H as (hdr & Hi & H).
  unfold iloc0 in Hi. destruct (rows df) as [|h data] eqn:Hrows; [discriminate|].
  injection Hi as ->.
  apply bind_ok in H. destruct H as (df1 & Hs & H).
  apply set_columns_ok in Hs. destruct Hs as (Hlen & -> & _).
  unfold tail_rows in H. cbn [columns index rows] in H. rewrite Hrows in H. cbn [tl] in H.
  remember (map LVal hdr) as cols eqn:Ecols.
  (* Debit *)
  apply bind_ok in H. destruct H as (v1 & G1 & H).
  apply getitem_ok in G1. cbn [columns rows] in G1. destruct G1 as (HDb & ->).
  apply bind_ok in H. destruct H as (w1 & T1 & H).
  apply to_numeric_ok in T1. destruct T1 as (P1 & ->).
  assert (HhD : has_label (col "Debit") cols = true) by (eapply count_has_label; eauto).
  rewrite setitem_plain, HhD in H.
  (* Credit *)
  apply bind_ok in H. destruct H as (v2 & G2 & H).
  apply getitem_ok in G2. cbn [columns rows] in G2. destruct G2 as (HCr & G2).
  rewrite map_map in G2. subst v2.
  apply bind_ok in H. destruct H as (w2 & T2 & H).
  apply to_numeric_ok in T2. destruct T2 as (P2 & ->).
  assert (HhC : has_label (col "Credit") cols = true) by (eapply count_has_label; eauto).
  rewrite setitem_rowwise, HhC in H.
  (* fillna, Amount *)
  unfold fillna0 in H. cbn [columns index rows] in H. rewrite map_map in H.
  rewrite !getitem_rowwise in H by assumption. cbn [bind] in H.
  apply bind_ok in H. destruct H as (amt & SA & H).
  apply series_add_ok in SA. destruct SA as (g & ->).
  rewrite setitem_rowwise in H.
  (* drop, select *)
  apply bind_ok in H. destruct H as (df5 & D5 & H).
  apply drop_columns_ok in D5. cbn [columns index rows] in D5.
  destruct D5 as (Hdrop & C5 & _ & R5 & Rect5).
  apply select_columns_ok in H. destruct H as (Hsel & Cd & _ & _ & Rectd).
  cbn [forallb] in Hdrop. rewrite !has_label_with in Hdrop by reflexivity.
  pose proof Hsel as Hsel'. rewrite C5 in Hsel'. cbn [forallb] in Hsel'.
  rewrite !has_label_kept in Hsel' by reflexivity.
  rewrite (has_label_with "Date" "Amount"), (has_label_with "Description" "Amount")
    in Hsel' by reflexivity.
  rewrite !andb_true_iff in Hdrop, Hsel'.
  destruct Hdrop as (HSt & HMn & _). destruct Hsel' as (HDa & _ & HDe & _).
  exists hdr, data. rewrite <- Ecols. repeat split.
  - exact HDb.
  - exact HCr.
  - cbn [forallb]. now rewrite HSt, HMn, HDa, HDe.
  - rewrite Forall_forall in P1, P2 |- *. intros r Hin. split.
    + exact (P1 r Hin).
    + specialize (P2 r Hin).
      rewrite col_values_set_other in P2; [exact P2 | exact HhD | now apply distinct_cols].
  - rewrite Cd.
    destruct (select_three _ _ _ _ Hsel) as (a & b & c & _ & _ & _ & E).
    exists a, b, c. left. exact E.
  - intros Rdf. apply Rectd, Rect5.
    unfold rectangular in *. cbn [columns rows]. rewrite Hrows in Rdf.
    apply Forall_map. inversion Rdf as [|? ? _ Rdata]. subst.
    eapply Forall_impl; [|exact Rdata]. intros r Hr. rewrite <- Hlen in Hr.
    rewrite set_row_length; [reflexivity|].
    rewrite length_map, set_row_length, HhC; [reflexivity|].
    now rewrite set_row_length, HhD.
Qed.

Lemma has_label_repeat (s t : string) (n : nat) :
  String.eqb s t = false -> has_label (col s) (repeat (col t) n) = false.
Proof.
  intros H. unfold has_label. induction n as [|n IH]; [reflexivity|].
  cbn [repeat existsb]. now rewrite label_eqb_cols, H, IH.
Qed.

Lemma count_label_repeat (s : string) (n : nat) :
  count_label (col s) (repeat (col s) n) = n.
Proof.
  unfold count_label. induction n as [|n IH]; [reflexivity|].
  cbn [repeat filter]. rewrite label_eqb_cols, String.eqb_refl. cbn [length].
  now rewrite IH.
Qed.

Lemma count_label_repeat_other (s t : string) (n : nat) :
  String.eqb s t = false -> count_label (col s) (repeat (col t) n) = 0.
Proof.
  intros H. apply has_label_count. now apply has_label_repeat.
Qed.

Lemma normalize_discover_ok (df d : DataFrame) :
  normalize_discover df = Ok d ->
  exists hdr data,
    rows df = hdr :: data /\
    forallb (fun s => has_label (col s) (map LVal hdr))
            ["Post Date"; "Category"; "Description"] = true /\
    count_label (col "Amount") (map LVal hdr) = 1 /\
    normal_columns (columns d) /\
    (rectangular df ->
     rectangular d /\
     Forall (fun r => parses (field "Amount" (map LVal hdr) r)) data).
Proof.
  intros H. unfold normalize_discover in H.
  apply bind_ok in H. destruct H as (hdr & Hi & H).
  unfold iloc0 in Hi. destruct (rows df) as [|h data] eqn:Hrows; [discriminate|].
  injection Hi as ->.
  apply bind_ok in H. destruct H as (df1 & Hs & H).
  apply set_columns_ok in Hs. destruct Hs as (Hlen & -> & _).
  unfold tail_rows in H. cbn [columns index rows] in H. rewrite Hrows in H. cbn [tl] in H.
  remember (map LVal hdr) as cols eqn:Ecols.
  apply bind_ok in H. destruct H as (df2 & D2 & H).
  apply drop_columns_ok in D2. cbn [columns index rows] in D2.
  destruct D2 as (Hdrop & C2 & _ & R2 & Rect2).
  apply bind_ok in H. destruct H as (df3 & S3 & H).
  apply select_columns_ok in S3. unfold rename_column in S3.
  cbn [columns index rows] in S3. destruct S3 as (Hsel & C3 & _ & R3 & Rect3).
  apply bind_ok in H. destruct H as (v & G & H).
  apply getitem_ok in G. destruct G as (HA3 & ->).
  apply bind_ok in H. destruct H as (w & T & H).
  apply to_numeric_ok in T. destruct T as (P & ->).
  injection H as <-.
  pose proof Hsel as Hsel'. cbn [forallb] in Hdrop, Hsel'.
  rewrite !andb_true_iff in Hdrop, Hsel'.
  destruct Hdrop as (HPd & HCa & _). destruct Hsel' as (_ & HDe & _).
  set (ls := [col "Post Date"; col "Category"]) in *.
  set (ren := fun c => if label_eqb (col "Trans. Date") c then col "Date" else c) in *.
  (* the columns *)
  destruct (select_three _ _ _ _ Hsel) as (a & b & c & Ca & Cb & Cc & E).
  rewrite <- C3 in E.
  assert (Hc : c = 0).
  { rewrite E in HA3. rewrite !count_label_app in HA3.
    rewrite !count_label_repeat_other in HA3 by reflexivity.
    rewrite count_label_repeat in HA3. now injection HA3. }
  subst c.
  assert (HAm : count_label (col "Amount") cols = 1).
  { rewrite <- Cc, C2.
    rewrite (count_label_map ren _ (col "Amount")) by (intros; now apply rename_other).
    now rewrite count_label_kept. }
  assert (HDe' : has_label (col "Description") cols = true).
  { destruct (has_label (col "Description") cols) eqn:F; [reflexivity|].
    apply has_label_count in F.
    rewrite <- (count_label_kept ls) in F by reflexivity.
    rewrite <- (count_label_map ren (col "Description")) in F
      by (intros; now apply rename_other).
    apply has_label_count in F. rewrite C2 in HDe. congruence. }
  exists hdr, data. rewrite <- Ecols. repeat split.
  - cbn [forallb]. now rewrite HPd, HCa, HDe'.
  - exact HAm.
  - unfold setitem. cbn [columns]. rewrite (count_has_label _ _ _ HA3).
    exists a, b, 0. right. exact E.
  - apply rectangular_setitem, Rect3.
    unfold rectangular, rename_column. cbn [columns rows]. rewrite length_map.
    apply Rect2. unfold rectangular in *. cbn [columns rows].
    rewrite Hrows in H. apply Forall_inv_tail in H.
    eapply Forall_impl; [|exact H]. intros r Hr. now rewrite <- Hlen in Hr.
  - rename H into Rdf. unfold rectangular in Rdf. rewrite Hrows in Rdf.
    apply Forall_inv_tail in Rdf.
    rewrite R3, R2, map_map, Forall_map in P. rewrite Forall_forall in P, Rdf |- *.
    intros r Hin. specialize (P r Hin). specialize (Rdf r Hin).
    rewrite <- Hlen in Rdf.
    assert (Hl5 : length (drop_row ls cols r) = length (map ren (columns df2))).
    { rewrite length_map, C2. now apply drop_row_length. }
    rewrite E in P. unfold select_row in P. cbn [flat_map] in P.
    rewrite app_nil_r in P.
    rewrite col_values_app in P
      by (now rewrite repeat_length, col_values_length by lia).
    rewrite col_values_app in P
      by (now rewrite repeat_length, col_values_length by lia).
    rewrite !(col_values_absent (col "Amount") (repeat _ _)) in P
      by (now apply has_label_repeat).
    cbn [app] in P.
    rewrite (col_values_single _ _ _ Cc) in P by lia.
    change (col_values (col "Amount") (repeat (col "Amount") 1) [?x]) with [x] in P.
    cbn [hd] in P.
    rewrite (col_values_relabel_cols ren _ (col "Amount")) in P
      by (intros; now apply rename_other).
    rewrite C2, col_values_drop in P by (apply kept_col; reflexivity).
    exact P.
Qed.

Lemma normalize_wellsfargo_ok (df d : DataFrame) :
  normalize_wellsfargo df = Ok d ->
  columns d = [col "Date"; col "Amount"; col "Description"] /\
  (rectangular df -> rectangular d).
Proof.
  intros H. unfold normalize_wellsfargo in H.
  apply bind_ok in H. destruct H as (df1 & D1 & H).
  apply drop_columns_ok in D1. destruct D1 as (_ & _ & _ & _ & R1).
  apply set_columns_ok in H. destruct H as (_ & -> & R). auto.
Qed.

Lemma read_csv_rectangular (f : file) (df : DataFrame) :
  read_csv f = Ok df -> rectangular df.
Proof.
  unfold read_csv. destruct (parsed f) as [|r0 rest]; [discriminate|].
  remember (r0 :: rest) as l eqn:El. clear El.
  destruct (forallb _ l) eqn:E; [|discriminate].
  intros [= <-]. unfold rectangular. cbn [columns rows].
  rewrite forallb_forall in E. apply Forall_map, Forall_forall. intros r Hin.
  specialize (E r Hin). apply Nat.leb_le in E.
  unfold pad. rewrite length_app, repeat_length, length_map, length_seq. lia.
Qed.

(** Every frame the loop appends has the three columns and is rectangular. *)
Lemma appended_normal (f : file) (d : DataFrame) :
  loop_body f = Append d -> normal_columns (columns d) /\ rectangular d.
Proof.
  unfold loop_body. destruct (read_csv f) as [df|e] eqn:Hr; [|discriminate].
  apply read_csv_rectangular in Hr.
  destruct (first_cell df) as [c|e]; [|discriminate].
  destruct (str_eq_cell "Status" c).
  { destruct (normalize_citi df) as [d'|e] eqn:N; [|discriminate].
    intros [= <-]. apply normalize_citi_ok in N.
    destruct N as (hdr & data & _ & _ & _ & _ & _ & Hn & Hrect). auto. }
  destruct (str_eq_cell "Trans. Date" c).
  { destruct (normalize_discover df) as [d'|e] eqn:N; [|discriminate].
    intros [= <-]. apply normalize_discover_ok in N.
    destruct N as (hdr & data & _ & _ & _ & Hn & Hrect). split; [exact Hn|].
    now apply Hrect. }
  destruct (strptime c) as [[]|e]; cbn [bind].
  - destruct (normalize_wellsfargo df) as [d'|e] eqn:N.
    + intros [= <-]. apply normalize_wellsfargo_ok in N. destruct N as [Hc Hrect].
      split; [|auto]. rewrite Hc. exists 0, 0, 0. now left.
    + destruct (is_ValueError e); discriminate.
  - destruct (is_ValueError e); discriminate.
Qed.

(** ** Malformed tables *)

Lemma citi_malformed_raises (df : DataFrame) :
  citi_malformed df -> exists e, normalize_citi df = Raise e.
Proof.
  intros (hdr & data & Hrows & Hbad).
  destruct (normalize_citi df) as [d|e] eqn:N; [exfalso | eauto].
  apply normalize_citi_ok in N.
  destruct N as (hdr' & data' & Hrows' & HDb & HCr & Hhas & Hp & _).
  rewrite Hrows in Hrows'. injection Hrows' as <- <-.
  cbn [forallb] in Hhas. rewrite !andb_true_iff in Hhas.
  destruct Hhas as (HSt & HMn & HDa & HDe & _).
  destruct Hbad as [(s & Hs & Habs) | (r & Hin & Hr)].
  - apply count_has_label in HDb, HCr.
    cbn [In] in Hs.
    destruct Hs as [<-|[<-|[<-|[<-|[<-|[<-|[]]]]]]]; congruence.
  - rewrite Forall_forall in Hp. destruct (Hp r Hin). tauto.
Qed.

Lemma discover_malformed_raises (df : DataFrame) :
  rectangular df ->
  discover_malformed df -> exists e, normalize_discover df = Raise e.
Proof.
  intros Hrect (hdr & data & Hrows & Hbad).
  destruct (normalize_discover df) as [d|e] eqn:N; [exfalso | eauto].
  apply normalize_discover_ok in N.
  destruct N as (hdr' & data' & Hrows' & Hhas & HAm & _ & Hp).
  rewrite Hrows in Hrows'. injection Hrows' as <- <-.
  cbn [forallb] in Hhas. rewrite !andb_true_iff in Hhas.
  destruct Hhas as (HPd & HCa & HDe & _).
  destruct Hbad as [(s & Hs & Habs) | (r & Hin & Hr)].
  - apply count_has_label in HAm.
    cbn [In] in Hs.
    destruct Hs as [<-|[<-|[<-|[<-|[]]]]]; congruence.
  - destruct (Hp Hrect) as [_ Hp']. rewrite Forall_forall in Hp'.
    exact (Hr (Hp' r Hin)).
Qed.

(** An exception in one turn of the loop ends the run. *)
Lemma abort_ends_run (lookup_df : list rule) (files : list file) (f : file) (e : exn) :
  In f files -> loop_body f = Abort e ->
  exists e', out_csv (main lookup_df files) = Raise e'.
Proof.
  intros Hin Hf. apply in_split in Hin. destruct Hin as (pre & post & ->).
  unfold main. destruct (pre ++ f :: post) as [|f0 l] eqn:E.
  { now destruct pre. }
  rewrite <- E. rewrite main_loop_app.
  destruct (main_loop pre [] []) as [printed [acc|e0]].
  - simpl. rewrite Hf. simpl. eauto.
  - simpl. eauto.
Qed.

(** The run ends with the exception of the first turn of the loop that raises
    one: the files before it were appended or skipped. *)
Lemma first_abort_ends_run (lookup_df : list rule) (pre post : list file)
    (f : file) (e : exn) :
  Forall (fun g => forall e', loop_body g <> Abort e') pre ->
  loop_body f = Abort e ->
  out_csv (main lookup_df (pre ++ f :: post)) = Raise e.
Proof.
  intros Hpre Hf.
  assert (Hl : forall printed acc,
             snd (main_loop (pre ++ f :: post) printed acc) = Raise e).
  { induction Hpre as [|g pre Hg _ IH]; intros printed acc.
    - cbn [app main_loop]. rewrite Hf. reflexivity.
    - cbn [app main_loop]. destruct (loop_body g) as [d|line|e'] eqn:Eg.
      + apply IH.
      + apply IH.
      + now destruct (Hg e'). }
  unfold main. destruct (pre ++ f :: post) as [|f0 l] eqn:E.
  { now destruct pre. }
  specialize (Hl [] []). destruct (main_loop (f0 :: l) [] []) as [printed r].
  cbn [snd] in Hl. subst r. reflexivity.
Qed.

(** C6, as the code has it.  A citi or discover table with a column missing
    from its header row, or with a Debit, Credit or Amount cell that is not
    a number, makes its normalizer raise an exception; [main] calls these two
    normalizers outside its [try], so the exception ends the loop at that
    file.  When no file before it has ended the run, the run ends with that
    very exception; in every case the run ends with an exception and nothing
    is written. *)
Theorem malformed_table_ends_run (lookup_df : list rule) (pre post : list file)
    (f : file) (df : DataFrame) :
  read_csv f = Ok df ->
  (first_cell df = Ok (CStr "Status") /\ citi_malformed df) \/
  (first_cell df = Ok (CStr "Trans. Date") /\ discover_malformed df) ->
  exists e,
    ((first_cell df = Ok (CStr "Status") /\ normalize_citi df = Raise e) \/
     (first_cell df = Ok (CStr "Trans. Date") /\ normalize_discover df = Raise e)) /\
    loop_body f = Abort e /\
    (Forall (fun g => forall e', loop_body g <> Abort e') pre ->
     out_csv (main lookup_df (pre ++ f :: post)) = Raise e) /\
    (exists e', out_csv (main lookup_df (pre ++ f :: post)) = Raise e').
Proof.
  intros Hr H.
  assert (Hb : exists e,
             ((first_cell df = Ok (CStr "Status") /\ normalize_citi df = Raise e) \/
              (first_cell df = Ok (CStr "Trans. Date") /\
               normalize_discover df = Raise e)) /\
             loop_body f = Abort e).
  { destruct H as [[Hc Hm] | [Hc Hm]].
    - destruct (citi_malformed_raises df Hm) as [e He].
      exists e. split; [now left|].
      rewrite (loop_body_text f df "Status" Hr Hc). cbn. now rewrite He.
    - destruct (discover_malformed_raises df (read_csv_rectangular f df Hr) Hm)
        as [e He].
      exists e. split; [now right|].
      rewrite (loop_body_text f df "Trans. Date" Hr Hc). cbn. now rewrite He. }
  destruct Hb as (e & Hn & He). exists e.
  split; [exact Hn|]. split; [exact He|]. split.
  - intros Hpre. exact (first_abort_ends_run lookup_df pre post f e Hpre He).
  - apply (abort_ends_run lookup_df (pre ++ f :: post) f e); [|exact He].
    apply in_or_app. right. now left.
Qed.

(** ** [pd.concat] on normalized frames *)

Lemma labels_eqb_eq (a b : list label) :
  Forall (fun l => exists s, l = col s) b ->
  labels_eqb a b = true -> a = b.
Proof.
  unfold labels_eqb. intros Hb H. apply andb_true_iff in H. destruct H as [Hl H].
  apply Nat.eqb_eq in Hl. revert a Hl H.
  induction Hb as [|y b [s ->] _ IH]; intros [|x a] Hl H; try discriminate.
  - reflexivity.
  - cbn [combine forallb fst snd] in H. apply andb_true_iff in H. destruct H as [Hx H].
    apply label_eqb_col_r in Hx. subst x. f_equal. apply IH; auto.
Qed.

Lemma Forall_repeat {A : Type} (P : A -> Prop) (x : A) (n : nat) :
  P x -> Forall P (repeat x n).
Proof. intros H. induction n; simpl; auto. Qed.

Lemma normal_columns_cols (cs : list label) :
  normal_columns cs ->
  Forall (fun l => l = col "Date" \/ l = col "Amount" \/ l = col "Description") cs.
Proof.
  intros (a & b & c & [-> | ->]);
    repeat (apply Forall_app; split); apply Forall_repeat; auto.
Qed.

Lemma normal_columns_named (cs : list label) :
  normal_columns cs -> Forall (fun l => exists s, l = col s) cs.
Proof.
  intros H. apply normal_columns_cols in H.
  eapply Forall_impl; [|exact H]. intros l [-> | [-> | ->]]; eauto.
Qed.

Lemma normal_columns_no_category (cs : list label) :
  normal_columns cs -> has_label (col "Category") cs = false.
Proof.
  intros (a & b & c & [-> | ->]);
    rewrite !has_label_app, !has_label_repeat by reflexivity; reflexivity.
Qed.

(** Normalized columns without a repeated name are one of the two
    arrangements. *)
Lemma normal_columns_nodup (cs : list label) :
  normal_columns cs ->
  (forall l, In l cs -> count_label l cs <= 1) ->
  cs = [col "Date"; col "Amount"; col "Description"] \/
  cs = [col "Date"; col "Description"; col "Amount"].
Proof.
  intros (a & b & c & [-> | ->]) H.
  - pose proof (H (col "Date")) as Ha. pose proof (H (col "Amount")) as Hb.
    pose proof (H (col "Description")) as Hc.
    rewrite !count_label_app in Ha, Hb, Hc.
    rewrite ?count_label_repeat, ?count_label_repeat_other in Ha, Hb, Hc by reflexivity.
    assert (a = 0) by (cut (S a + (0 + 0) <= 1); [lia | apply Ha; cbn; auto]).
    assert (b = 0).
    { cut (0 + (S b + 0) <= 1); [lia | apply Hb].
      apply in_or_app. right. cbn. auto. }
    assert (c = 0).
    { cut (0 + (0 + S c) <= 1); [lia | apply Hc].
      apply in_or_app. right. apply in_or_app. right. cbn. auto. }
    subst. now left.
  - pose proof (H (col "Date")) as Ha. pose proof (H (col "Description")) as Hb.
    pose proof (H (col "Amount")) as Hc.
    rewrite !count_label_app in Ha, Hb, Hc.
    rewrite ?count_label_repeat, ?count_label_repeat_other in Ha, Hb, Hc by reflexivity.
    assert (a = 0) by (cut (S a + (0 + 0) <= 1); [lia | apply Ha; cbn; auto]).
    assert (b = 0).
    { cut (0 + (S b + 0) <= 1); [lia | apply Hb].
      apply in_or_app. right. cbn. auto. }
    assert (c = 0).
    { cut (0 + (0 + S c) <= 1); [lia | apply Hc].
      apply in_or_app. right. apply in_or_app. right. cbn. auto. }
    subst. now right.
Qed.

Lemma has_dup_false (cs : list label) :
  has_dup cs = false -> forall l, In l cs -> count_label l cs <= 1.
Proof.
  unfold has_dup. intros H l Hin.
  destruct (Nat.ltb 1 (count_label l cs)) eqn:E.
  - assert (existsb (fun l => Nat.ltb 1 (count_label l cs)) cs = true)
      by (apply existsb_exists; eauto).
    congruence.
  - apply Nat.ltb_ge in E. exact E.
Qed.

Lemma union_labels_absorb (seen ls : list label) :
  Forall (fun l => has_label l seen = true) ls -> union_labels seen ls = seen.
Proof.
  induction 1 as [|l ls Hl _ IH]; simpl; [reflexivity|]. now rewrite Hl.
Qed.

Lemma union_labels_app (seen a b : list label) :
  union_labels seen (a ++ b) = union_labels (union_labels seen a) b.
Proof.
  revert seen. induction a as [|l a IH]; intros seen; simpl; [reflexivity|].
  apply IH.
Qed.

Lemma map_flat_map {A B C : Type} (f : B -> C) (g : A -> list B) (l : list A) :
  map f (flat_map g l) = flat_map (fun x => map f (g x)) l.
Proof.
  induction l as [|x l IH]; simpl; [reflexivity|]. now rewrite map_app, IH.
Qed.

Lemma flat_map_ext_in {A B : Type} (f g : A -> list B) (l : list A) :
  (forall x, In x l -> f x = g x) -> flat_map f l = flat_map g l.
Proof.
  induction l as [|x l IH]; intros H; simpl; [reflexivity|].
  rewrite (H x) by (now left). f_equal. apply IH. intros y Hy. apply H. now right.
Qed.

Lemma nodup_arrangement (d : DataFrame) :
  normal_columns (columns d) ->
  has_dup (columns d) = false ->
  columns d = [col "Date"; col "Amount"; col "Description"] \/
  columns d = [col "Date"; col "Description"; col "Amount"].
Proof.
  intros Hn Hd. apply normal_columns_nodup; [exact Hn|]. now apply has_dup_false.
Qed.

(** Aligning a row of one arrangement on the other moves its cells and
    keeps the transaction. *)
Lemma reindex_transaction (u cs : list label) (r : list cell) :
  u = [col "Date"; col "Amount"; col "Description"] \/
  u = [col "Date"; col "Description"; col "Amount"] ->
  cs = [col "Date"; col "Amount"; col "Description"] \/
  cs = [col "Date"; col "Description"; col "Amount"] ->
  length r = length cs ->
  transaction_of u (reindex_row u cs r) = transaction_of cs r /\
  length (reindex_row u cs r) = length u.
Proof.
  intros [-> | ->] [-> | ->] Hl;
    destruct r as [|x [|y [|z [|? ?]]]]; try discriminate; split; reflexivity.
Qed.

(** [pd.concat] on frames the loop has appended: the columns are those of
    the first frame, the rows are the rows of the frames, frame after frame
    and row after row, each standing for the same transaction as before. *)
Lemma concat_normal (dfs : list DataFrame) (result : DataFrame) :
  Forall (fun d => normal_columns (columns d) /\ rectangular d) dfs ->
  concat dfs = Ok result ->
  exists d0 rest,
    dfs = d0 :: rest /\
    columns result = columns d0 /\
    rectangular result /\
    map (transaction_of (columns result)) (rows result) =
      flat_map (fun d => map (transaction_of (columns d)) (rows d)) dfs /\
    length (rows result) = length (flat_map rows dfs).
Proof.
  intros Hall. destruct dfs as [|d0 rest]; [discriminate|]. unfold concat.
  remember (d0 :: rest) as dfs eqn:Edfs.
  assert (H0 : In d0 dfs) by (subst; now left).
  assert (Hrest : forall d, In d rest -> In d dfs) by (subst; intros; now right).
  rewrite Forall_forall in Hall.
  destruct (forallb _ rest) eqn:Eall.
  - intros [= <-]. exists d0, rest. cbn [columns rows].
    assert (Heq : forall d, In d dfs -> columns d = columns d0).
    { intros d Hin. subst dfs. destruct Hin as [<- | Hin]; [reflexivity|].
      rewrite forallb_forall in Eall.
      apply labels_eqb_eq; [|now apply Eall].
      apply normal_columns_named. now apply (Hall d0). }
    repeat split.
    + exact Edfs.
    + unfold rectangular. cbn [columns rows]. apply Forall_forall.
      intros r Hin. apply in_flat_map in Hin. destruct Hin as (d & Hd & Hr).
      destruct (Hall d Hd) as [_ Rd]. unfold rectangular in Rd.
      rewrite Forall_forall in Rd. rewrite <- (Heq d Hd). now apply Rd.
    + rewrite map_flat_map. apply flat_map_ext_in. intros d Hd.
      now rewrite (Heq d Hd).
  - destruct (existsb _ dfs) eqn:Edup; [discriminate|]. intros [= <-].
    exists d0, rest. cbn [columns rows].
    assert (Harr : forall d, In d dfs ->
              columns d = [col "Date"; col "Amount"; col "Description"] \/
              columns d = [col "Date"; col "Description"; col "Amount"]).
    { intros d Hd. apply nodup_arrangement; [now apply (Hall d)|].
      destruct (has_dup (columns d)) eqn:E; [|reflexivity].
      assert (existsb (fun d => has_dup (columns d)) dfs = true)
        by (apply existsb_exists; eauto).
      congruence. }
    assert (Hu : union_labels [] (flat_map columns dfs) = columns d0).
    { rewrite Edfs. cbn [flat_map]. rewrite union_labels_app.
      assert (E0 : union_labels [] (columns d0) = columns d0)
        by (destruct (Harr d0 H0) as [-> | ->]; reflexivity).
      rewrite E0. apply union_labels_absorb. apply Forall_forall.
      intros l Hl. apply in_flat_map in Hl. destruct Hl as (d & Hd & Hl).
      destruct (Harr d0 H0) as [-> | ->];
        destruct (Harr d (Hrest d Hd)) as [E | E]; rewrite E in Hl;
        cbn [In] in Hl; destruct Hl as [<-|[<-|[<-|[]]]]; reflexivity. }
    rewrite Hu. repeat split.
    + exact Edfs.
    + unfold rectangular. cbn [columns rows]. apply Forall_forall.
      intros r Hin. apply in_flat_map in Hin. destruct Hin as (d & Hd & Hr).
      apply in_map_iff in Hr. destruct Hr as (r0 & <- & Hr0).
      destruct (Hall d Hd) as [_ Rd]. unfold rectangular in Rd.
      rewrite Forall_forall in Rd.
      apply (reindex_transaction _ _ _ (Harr d0 H0) (Harr d Hd) (Rd r0 Hr0)).
    + rewrite map_flat_map. apply flat_map_ext_in. intros d Hd.
      rewrite map_map. apply map_ext_in. intros r Hr.
      destruct (Hall d Hd) as [_ Rd]. unfold rectangular in Rd.
      rewrite Forall_forall in Rd.
      apply (reindex_transaction _ _ _ (Harr d0 H0) (Harr d Hd) (Rd r Hr)).
    + rewrite !length_flat_map. f_equal. apply map_ext. intros d.
      now rewrite length_map.
Qed.

(** ** The end of [main] *)

Lemma field_snoc_other (s t : string) (cols : list label) (r : list cell) (v : cell) :
  String.eqb s t = false ->
  length r = length cols ->
  field s (cols ++ [col t]) (r ++ [v]) = field s cols r.
Proof.
  intros H Hl. unfold field. rewrite col_values_app by exact Hl.
  rewrite (col_values_absent (col s) [col t]), app_nil_r; [reflexivity|].
  unfold has_label. cbn [existsb]. now rewrite label_eqb_cols, H.
Qed.

Lemma field_snoc_new (t : string) (cols : list label) (r : list cell) (v : cell) :
  has_label (col t) cols = false ->
  length r = length cols ->
  field t (cols ++ [col t]) (r ++ [v]) = v.
Proof.
  intros H Hl. unfold field. rewrite col_values_app by exact Hl.
  rewrite (col_values_absent _ _ _ H). unfold col_values. cbn [combine filter app].
  head_label. now rewrite label_eqb_cols, String.eqb_refl.
Qed.

(** A run that writes out.csv: the frames appended by the loop were
    concatenated, and every row got one more cell, the category of its
    description. *)
Lemma main_ok (lookup_df : list rule) (files : list file) (out : csv) :
  out_csv (main lookup_df files) = Ok out ->
  exists d0 rest result cat,
    flat_map appended files = d0 :: rest /\
    concat (d0 :: rest) = Ok result /\
    normal_columns (columns d0) /\
    columns result = columns d0 /\
    rectangular result /\
    map (transaction_of (columns result)) (rows result) =
      flat_map (fun d => map (transaction_of (columns d)) (rows d)) (d0 :: rest) /\
    length (rows result) = length (flat_map rows (d0 :: rest)) /\
    header out = columns d0 ++ [col "Category"] /\
    body out = map (fun r => r ++ [cat r]) (rows result) /\
    Forall (fun r => categorize lookup_df (field "Description" (columns result) r)
                     = Ok (cat r)) (rows result).
Proof.
  intros H. unfold main in H. destruct files as [|f fs]; [discriminate|].
  destruct (main_loop (f :: fs) [] []) as [printed r] eqn:ML. cbn [out_csv] in H.
  apply bind_ok in H. destruct H as (dfs & -> & H).
  apply main_loop_ok in ML. cbn [app] in ML.
  apply bind_ok in H. destruct H as (result & Hc & H).
  assert (Hall : Forall (fun d => normal_columns (columns d) /\ rectangular d) dfs).
  { rewrite ML. apply Forall_forall. intros d Hd.
    apply in_flat_map in Hd. destruct Hd as (f' & _ & Hd).
    unfold appended in Hd. destruct (loop_body f') as [d'| |] eqn:Ef; try contradiction.
    destruct Hd as [<- | []]. now apply (appended_normal f'). }
  destruct (concat_normal dfs result Hall Hc) as (d0 & rest & E & Hcols & Hrect & Ht & Hlen).
  assert (Hn : normal_columns (columns d0)).
  { rewrite E in Hall. now inversion Hall. }
  apply bind_ok in H. destruct H as (desc & G & H).
  apply getitem_ok in G. destruct G as (_ & ->).
  apply bind_ok in H. destruct H as (cats & M & H).
  apply (mapM_ok_rowwise (categorize lookup_df) _ CNaN) in M. destruct M as (Mok & ->).
  injection H as <-.
  exists d0, rest, result,
    (fun r => match categorize lookup_df (field "Description" (columns result) r) with
              | Ok c => c
              | Raise _ => CNaN
              end).
  rewrite E in ML, Hc, Ht, Hlen. clear E Hall.
  repeat split; auto.
  - unfold to_csv, setitem. cbn [header columns].
    now rewrite Hcols, (normal_columns_no_category _ Hn).
  - unfold to_csv, setitem. cbn [body rows]. rewrite combine_with_map, map_map.
    apply map_ext. intros r. cbn [fst snd]. apply set_row_absent.
    rewrite Hcols. now apply normal_columns_no_category.
  - eapply Forall_impl; [|exact Mok]. intros r [c Hc']. unfold field.
    now rewrite Hc'.
Qed.

(** A loop in which no turn raises runs to its end. *)
Lemma main_loop_no_abort (files : list file) (printed : list string)
    (acc : list DataFrame) :
  Forall (fun f => forall e, loop_body f <> Abort e) files ->
  main_loop files printed acc =
  (printed ++ flat_map printed_by files, Ok (acc ++ flat_map appended files)).
Proof.
  intros H. revert printed acc.
  induction H as [|f files Hf _ IH]; intros printed acc; simpl.
  - now rewrite !app_nil_r.
  - unfold printed_by at 1, appended at 1.
    destruct (loop_body f) as [d|line|e] eqn:E.
    + rewrite IH. simpl. now rewrite <- app_assoc.
    + rewrite IH. simpl. now rewrite <- app_assoc.
    + now destruct (Hf e).
Qed.

Lemma appended_all_normal (files : list file) :
  Forall (fun d => normal_columns (columns d) /\ rectangular d)
         (flat_map appended files).
Proof.
  apply Forall_forall. intros d Hd.
  apply in_flat_map in Hd. destruct Hd as (f & _ & Hd).
  unfold appended in Hd. destruct (loop_body f) as [d'| |] eqn:Ef; try contradiction.
  destruct Hd as [<- | []]. now apply (appended_normal f).
Qed.

(** X9. When the run writes out.csv.  No turn of the loop raises, at least one
    frame is appended, no appended frame repeats a column name, every
    description is text and [lookup] answers on it: then the run prints the
    lines of the skipped files and writes a file. *)
Lemma main_writes (lookup_df : list rule) (files : list file) :
  Forall (fun f => forall e, loop_body f <> Abort e) files ->
  flat_map appended files <> [] ->
  Forall (fun d => has_dup (columns d) = false) (flat_map appended files) ->
  Forall (fun d =>
            Forall (fun r => exists s c,
                        field "Description" (columns d) r = CStr s /\
                        lookup s lookup_df = Ok c) (rows d))
         (flat_map appended files) ->
  exists out,
    main lookup_df files = {| stdout := flat_map printed_by files; out_csv := Ok out |}.
Proof.
  intros Hloop Hne Hdup Hdesc. unfold main.
  destruct files as [|f fs]; [now destruct Hne|].
  rewrite (main_loop_no_abort _ [] [] Hloop). cbn [app bind].
  pose proof (appended_all_normal (f :: fs)) as Hall.
  remember (flat_map appended (f :: fs)) as dfs eqn:Edfs in *. clear Edfs.
  assert (Hc : exists result, concat dfs = Ok result).
  { unfold concat. destruct dfs as [|d0 rest]; [now destruct Hne|].
    destruct (forallb _ rest); [eauto|].
    assert (E : existsb (fun d => has_dup (columns d)) (d0 :: rest) = false).
    { destruct (existsb _ (d0 :: rest)) eqn:E; [|reflexivity].
      apply existsb_exists in E. destruct E as (d & Hd & E).
      rewrite Forall_forall in Hdup. rewrite (Hdup d Hd) in E. discriminate. }
    rewrite E. eauto. }
  destruct Hc as [result Hc]. rewrite Hc. cbn [bind].
  destruct (concat_normal dfs result Hall Hc)
    as (d0 & rest & -> & Hcols & Hrect & Ht & _).
  assert (Harr : columns result = [col "Date"; col "Amount"; col "Description"] \/
                 columns result = [col "Date"; col "Description"; col "Amount"]).
  { rewrite Hcols. apply nodup_arrangement.
    - now inversion Hall.
    - now inversion Hdup. }
  assert (Hcount : count_label (col "Description") (columns result) = 1)
    by (destruct Harr as [-> | ->]; reflexivity).
  destruct result as [rc ri rr]. cbn [columns rows] in *.
  rewrite getitem_plain by exact Hcount. cbn [bind].
  assert (Hr : Forall (fun r => exists s c,
                         field "Description" rc r = CStr s /\
                         lookup s lookup_df = Ok c) rr).
  { assert (Ht' : Forall (fun t => exists s c, snd t = CStr s /\ lookup s lookup_df = Ok c)
                         (map (transaction_of rc) rr)).
    { rewrite Ht. apply Forall_forall. intros t Hin.
      apply in_flat_map in Hin. destruct Hin as (d & Hd & Hin).
      apply in_map_iff in Hin. destruct Hin as (r & <- & Hin).
      rewrite Forall_forall in Hdesc. specialize (Hdesc d Hd).
      rewrite Forall_forall in Hdesc. exact (Hdesc r Hin). }
    rewrite Forall_map in Ht'. exact Ht'. }
  rewrite (mapM_rowwise (categorize lookup_df)
             (fun c => match categorize lookup_df c with Ok x => x | Raise _ => CNaN end)).
  - cbn [bind]. eauto.
  - apply Forall_map. eapply Forall_impl; [|exact Hr].
    intros r (s & c & Hs & Hl). unfold field in Hs. rewrite Hs. cbn [categorize].
    now rewrite Hl.
Qed.

(** C8, as the code has it.  A run that writes out.csv, with no column name
    repeated in it, writes the columns of the first frame the loop appended
    followed by Category: Date, Amount, Description, Category, or, when the
    first frame comes from [normalize_discover], Date, Description, Amount,
    Category.  Every row has these four cells, and there is one row for
    each row of the appended frames. *)
Theorem output_columns (lookup_df : list rule) (files : list file) (out : csv) :
  out_csv (main lookup_df files) = Ok out ->
  has_dup (header out) = false ->
  (header out = [col "Date"; col "Amount"; col "Description"; col "Category"] \/
   header out = [col "Date"; col "Description"; col "Amount"; col "Category"]) /\
  (exists d0 rest,
      flat_map appended files = d0 :: rest /\
      header out = columns d0 ++ [col "Category"]) /\
  Forall (fun r => length r = 4) (body out) /\
  length (body out) = length (flat_map rows (flat_map appended files)).
Proof.
  intros H Hd. apply main_ok in H.
  destruct H as (d0 & rest & result & cat & Hfiles & _ & Hn & Hcols & Hrect & _
                 & Hlen & Hh & Hb & _).
  assert (Harr : columns d0 = [col "Date"; col "Amount"; col "Description"] \/
                 columns d0 = [col "Date"; col "Description"; col "Amount"]).
  { apply normal_columns_nodup; [exact Hn|]. intros l Hl.
    pose proof (has_dup_false _ Hd l) as Hc. rewrite Hh in Hc.
    rewrite count_label_app in Hc.
    assert (In l (columns d0 ++ [col "Category"])) by (apply in_or_app; now left).
    specialize (Hc H). lia. }
  repeat split.
  - rewrite Hh. destruct Harr as [-> | ->]; [now left | now right].
  - exists d0, rest. split; [exact Hfiles | exact Hh].
  - rewrite Hb. apply Forall_map. unfold rectangular in Hrect.
    eapply Forall_impl; [|exact Hrect]. intros r Hr.
    rewrite length_app, Hr, Hcols. destruct Harr as [-> | ->]; reflexivity.
  - rewrite Hb, length_map, Hlen, Hfiles. reflexivity.
Qed.

(** C9. In a run that writes out.csv, the rows written are the rows of the
    frames the loop appended, file after file in the order of the command
    line and, within a file, row after row in the order of its normalized
    table: each row written stands for the same transaction (Date, Amount,
    Description) as the row it comes from, and carries in addition the
    category that [lookup] gives its description. *)
Theorem consolidated_in_order (lookup_df : list rule) (files : list file) (out : csv) :
  out_csv (main lookup_df files) = Ok out ->
  map (transaction_of (header out)) (body out) =
    flat_map (fun d => map (transaction_of (columns d)) (rows d))
             (flat_map appended files)
  /\ Forall (fun r => categorize lookup_df (field "Description" (header out) r)
                      = Ok (field "Category" (header out) r)) (body out)
  /\ length (body out) = length (flat_map rows (flat_map appended files)).
Proof.
  intros H. apply main_ok in H.
  destruct H as (d0 & rest & result & cat & Hfiles & _ & Hn & Hcols & Hrect & Ht
                 & Hlen & Hh & Hb & Hcat).
  rewrite Hfiles, Hh, Hb, <- Hcols. unfold rectangular in Hrect.
  rewrite Forall_forall in Hrect, Hcat.
  repeat split.
  - rewrite <- Ht, map_map. apply map_ext_in. intros r Hr.
    unfold transaction_of.
    now rewrite !field_snoc_other by (reflexivity || now apply Hrect).
  - apply Forall_map, Forall_forall. intros r Hr.
    rewrite field_snoc_other by (reflexivity || now apply Hrect).
    rewrite field_snoc_new; [now apply Hcat | | now apply Hrect].
    rewrite Hcols. now apply normal_columns_no_category.
  - now rewrite length_map.
Qed.

End Properties.

(** * Further properties of the script *)

Section Further.

Context {L : PyLib}.

(** ** More on [lookup] *)



(** X2. [lookup] on two tables put one behind the other: a first table that
    is searched without a match hands over to the second; a first table that
    answers through a match, or raises, decides alone, and the second table
    is not looked at. *)
Theorem lookup_app (description : string) (a b : list rule) :
  (Forall (fun q => re_search (regex q) description = Some false) a ->
   lookup description (a ++ b) = lookup description b)
  /\ (forall r,
         In r a -> re_search (regex r) description = Some true ->
         lookup description (a ++ b) = lookup description a)
  /\ (forall e,
         lookup description a = Raise e ->
         lookup description (a ++ b) = Raise e).
Proof.
  repeat split.
  - induction 1 as [|q a Hq _ IH]; simpl; [reflexivity|]. now rewrite Hq.
  - induction a as [|q a IH]; intros r Hin Hr; [contradiction|]. simpl.
    destruct (re_search (regex q) description) as [[|]|] eqn:E; try reflexivity.
    destruct Hin as [-> | Hin]; [congruence|]. now apply (IH r).
  - induction a as [|q a IH]; intros e; simpl; [discriminate|].
    destruct (re_search (regex q) description) as [[|]|]; auto.
Qed.

(** ** What a normalizer that returns has kept *)

Lemma has_label_In (s : string) (cols : list label) :
  has_label (col s) cols = true -> In (col s) cols.
Proof.
  unfold has_label. intros H. apply existsb_exists in H.
  destruct H as (x & Hin & Hx). apply label_eqb_col_l in Hx. now subst x.
Qed.

Lemma In_has_label (s : string) (cols : list label) :
  In (col s) cols -> has_label (col s) cols = true.
Proof.
  intros H. unfold has_label. apply existsb_exists.
  exists (col s). split; [exact H | now apply label_eqb_col_l].
Qed.

(** A header that has a column for each of [n] different names has at least
    [n] columns. *)
Lemma named_columns_width (ss : list string) (cols : list label) :
  NoDup ss ->
  Forall (fun s => has_label (col s) cols = true) ss ->
  length ss <= length cols.
Proof.
  intros Hnd Hall.
  rewrite <- (length_map (fun s => col s) ss).
  apply NoDup_incl_length.
  - induction Hnd as [|x l Hx _ IH]; simpl; constructor.
    + intros Hin. apply in_map_iff in Hin. destruct Hin as (y & Hy & Hin).
      unfold col in Hy. injection Hy as ->. contradiction.
    + apply IH. now inversion Hall.
  - intros l Hin. apply in_map_iff in Hin. destruct Hin as (x & <- & Hin).
    rewrite Forall_forall in Hall. now apply has_label_In, Hall.
Qed.

Lemma normalize_citi_inv (df d : DataFrame) :
  normalize_citi df = Ok d ->
  exists hdr data,
    rows df = hdr :: data /\
    length hdr = length (columns df) /\
    index d = tl (index df) /\
    length (rows d) = length data.
Proof.
  intros H. unfold normalize_citi in H.
  apply bind_ok in H. destruct H as (hdr & Hi & H).
  unfold iloc0 in Hi. destruct (rows df) as [|h data] eqn:Hrows; [discriminate|].
  injection Hi as ->.
  apply bind_ok in H. destruct H as (df1 & Hs & H).
  apply set_columns_ok in Hs. destruct Hs as (Hlen & -> & _).
  rewrite length_map in Hlen.
  unfold tail_rows in H. cbn [columns index rows] in H. rewrite Hrows in H. cbn [tl] in H.
  apply bind_ok in H. destruct H as (v1 & G1 & H).
  apply getitem_ok in G1. cbn [columns rows] in G1. destruct G1 as (HDb & ->).
  apply bind_ok in H. destruct H as (w1 & T1 & H).
  apply to_numeric_ok in T1. destruct T1 as (_ & ->).
  rewrite setitem_plain in H.
  apply bind_ok in H. destruct H as (v2 & G2 & H).
  apply getitem_ok in G2. cbn [columns rows] in G2. destruct G2 as (_ & G2).
  rewrite map_map in G2. subst v2.
  apply bind_ok in H. destruct H as (w2 & T2 & H).
  apply to_numeric_ok in T2. destruct T2 as (_ & ->).
  rewrite setitem_rowwise in H.
  unfold fillna0 in H. cbn [columns index rows] in H. rewrite map_map in H.
  apply bind_ok in H. destruct H as (v3 & G3 & H).
  apply getitem_ok in G3. cbn [columns rows] in G3. destruct G3 as (_ & G3).
  rewrite map_map in G3. subst v3.
  apply bind_ok in H. destruct H as (v4 & G4 & H).
  apply getitem_ok in G4. cbn [columns rows] in G4. destruct G4 as (_ & G4).
  rewrite map_map in G4. subst v4.
  apply bind_ok in H. destruct H as (amt & SA & H).
  apply series_add_ok in SA. destruct SA as (g & ->).
  rewrite setitem_rowwise in H.
  apply bind_ok in H. destruct H as (df5 & D5 & H).
  apply drop_columns_ok in D5. cbn [columns index rows] in D5.
  destruct D5 as (_ & _ & I5 & R5 & _).
  apply select_columns_ok in H. destruct H as (_ & _ & Id & Rd & _).
  exists hdr, data. repeat split.
  - exact Hlen.
  - now rewrite Id, I5.
  - now rewrite Rd, R5, !length_map.
Qed.

Lemma normalize_citi_width (df d : DataFrame) :
  normalize_citi df = Ok d -> 6 <= length (columns df).
Proof.
  intros H. pose proof (normalize_citi_ok df d H)
    as (hdr & data & Hrows & HDb & HCr & Hhas & _).
  destruct (normalize_citi_inv df d H) as (hdr' & data' & Hrows' & Hlen & _).
  rewrite Hrows in Hrows'. injection Hrows' as <- <-.
  rewrite <- Hlen, <- (length_map LVal hdr).
  cbn [forallb] in Hhas. rewrite !andb_true_iff in Hhas.
  destruct Hhas as (HSt & HMn & HDa & HDe & _).
  apply count_has_label in HDb, HCr.
  apply (named_columns_width
           ["Status"; "Date"; "Description"; "Debit"; "Credit"; "Member Name"]).
  - repeat constructor; simpl; intuition discriminate.
  - repeat constructor; assumption.
Qed.

(** X3. When [normalize_citi] returns, the table had at least six columns
    (one for each of the six names), and the frame returned has one row for
    each row below the header, under the row labels these rows had. *)
Theorem normalize_citi_returns (df d : DataFrame) :
  normalize_citi df = Ok d ->
  6 <= length (columns df) /\
  index d = tl (index df) /\
  length (rows d) = length (tl (rows df)).
Proof.
  intros H. split; [exact (normalize_citi_width df d H)|].
  destruct (normalize_citi_inv df d H) as (hdr & data & Hrows & _ & Hi & Hr).
  rewrite Hrows. cbn [tl]. auto.
Qed.

Lemma normalize_discover_inv (df d : DataFrame) :
  normalize_discover df = Ok d ->
  exists hdr data,
    rows df = hdr :: data /\
    length hdr = length (columns df) /\
    (has_label (col "Trans. Date") (map LVal hdr) = true \/
     has_label (col "Date") (map LVal hdr) = true) /\
    index d = tl (index df) /\
    length (rows d) = length data.
Proof.
  intros H. unfold normalize_discover in H.
  apply bind_ok in H. destruct H as (hdr & Hi & H).
  unfold iloc0 in Hi. destruct (rows df) as [|h data] eqn:Hrows; [discriminate|].
  injection Hi as ->.
  apply bind_ok in H. destruct H as (df1 & Hs & H).
  apply set_columns_ok in Hs. destruct Hs as (Hlen & -> & _).
  rewrite length_map in Hlen.
  unfold tail_rows in H. cbn [columns index rows] in H. rewrite Hrows in H. cbn [tl] in H.
  apply bind_ok in H. destruct H as (df2 & D2 & H).
  apply drop_columns_ok in D2. cbn [columns index rows] in D2.
  destruct D2 as (_ & C2 & I2 & R2 & _).
  apply bind_ok in H. destruct H as (df3 & S3 & H).
  apply select_columns_ok in S3. unfold rename_column in S3.
  cbn [columns index rows] in S3. destruct S3 as (Hsel & _ & I3 & R3 & _).
  apply bind_ok in H. destruct H as (v & G & H).
  apply getitem_ok in G. destruct G as (_ & ->).
  apply bind_ok in H. destruct H as (w & T & H).
  apply to_numeric_ok in T. destruct T as (_ & ->).
  injection H as <-.
  exists hdr, data. repeat split.
  - exact Hlen.
  - cbn [forallb] in Hsel. apply andb_true_iff in Hsel. destruct Hsel as [HDa _].
    apply has_label_In in HDa. apply in_map_iff in HDa.
    destruct HDa as (c & Hc & Hin). rewrite C2 in Hin.
    apply filter_In in Hin. destruct Hin as [Hin _].
    destruct (label_eqb (col "Trans. Date") c) eqn:E.
    + apply label_eqb_col_l in E. subst c. left. now apply In_has_label.
    + subst c. right. now apply In_has_label.
  - unfold setitem. cbn [index]. now rewrite I3, I2.
  - unfold setitem. cbn [rows]. rewrite combine_with_map, !length_map.
    now rewrite R3, R2, !length_map.
Qed.

Lemma normalize_discover_width (df d : DataFrame) :
  normalize_discover df = Ok d -> 5 <= length (columns df).
Proof.
  intros H. pose proof (normalize_discover_ok df d H)
    as (hdr & data & Hrows & Hhas & HAm & _).
  destruct (normalize_discover_inv df d H)
    as (hdr' & data' & Hrows' & Hlen & HDa & _).
  rewrite Hrows in Hrows'. injection Hrows' as <- <-.
  rewrite <- Hlen, <- (length_map LVal hdr).
  cbn [forallb] in Hhas. rewrite !andb_true_iff in Hhas.
  destruct Hhas as (HPd & HCa & HDe & _).
  apply count_has_label in HAm.
  destruct HDa as [HDa | HDa].
  - apply (named_columns_width
             ["Trans. Date"; "Post Date"; "Description"; "Amount"; "Category"]).
    + repeat constructor; simpl; intuition discriminate.
    + repeat constructor; assumption.
  - apply (named_columns_width
             ["Date"; "Post Date"; "Description"; "Amount"; "Category"]).
    + repeat constructor; simpl; intuition discriminate.
    + repeat constructor; assumption.
Qed.

(** X4. When [normalize_discover] returns, the table had at least five
    columns (Trans. Date or Date, Post Date, Description, Amount,
    Category), and the frame returned has one row for each row below the
    header, under the row labels these rows had. *)
Theorem normalize_discover_returns (df d : DataFrame) :
  normalize_discover df = Ok d ->
  5 <= length (columns df) /\
  index d = tl (index df) /\
  length (rows d) = length (tl (rows df)).
Proof.
  intros H. split; [exact (normalize_discover_width df d H)|].
  destruct (normalize_discover_inv df d H) as (hdr & data & Hrows & _ & _ & Hi & Hr).
  rewrite Hrows. cbn [tl]. auto.
Qed.

(** ** [normalize_wellsfargo] by the number of columns *)

Lemma has_label_positions (a n k : nat) :
  has_label (LPos k) (map LPos (seq a n)) = Nat.leb a k && Nat.ltb k (a + n).
Proof.
  unfold has_label. revert a. induction n as [|n IH]; intros a; simpl.
  - apply Bool.eq_iff_eq_true.
    rewrite andb_true_iff, Nat.leb_le, Nat.ltb_lt. split; [discriminate | lia].
  - rewrite IH. apply Bool.eq_iff_eq_true.
    rewrite orb_true_iff, !andb_true_iff, Nat.eqb_eq, !Nat.leb_le, !Nat.ltb_lt. lia.
Qed.

Lemma kept_positions (a n : nat) :
  4 <= a ->
  filter (kept [LPos 2; LPos 3]) (map LPos (seq a n)) = map LPos (seq a n).
Proof.
  revert a. induction n as [|n IH]; intros a Ha; simpl; [reflexivity|].
  unfold kept at 1, has_label. cbn [existsb label_eqb].
  destruct (Nat.eqb a 2) eqn:E2; [apply Nat.eqb_eq in E2; lia|].
  destruct (Nat.eqb a 3) eqn:E3; [apply Nat.eqb_eq in E3; lia|].
  simpl. f_equal. apply IH. lia.
Qed.

(** After [drop(columns=[2, 3])], a table of [w >= 4] positional columns has
    [w - 2] columns left. *)
Lemma dropped_width (w : nat) :
  4 <= w ->
  length (filter (kept [LPos 2; LPos 3]) (map LPos (seq 0 w))) = w - 2.
Proof.
  intros Hw. replace w with (4 + (w - 4)) at 1 by lia.
  rewrite seq_app, map_app, filter_app, length_app.
  rewrite (kept_positions 4) by lia. rewrite length_map, length_seq.
  cbn. lia.
Qed.

Lemma wellsfargo_by_width (df : DataFrame) (w : nat) :
  columns df = map LPos (seq 0 w) ->
  (w < 4 -> normalize_wellsfargo df = Raise KeyError) /\
  (4 <= w -> w <> 5 -> normalize_wellsfargo df = Raise ValueError) /\
  (w = 5 -> exists d, normalize_wellsfargo df = Ok d).
Proof.
  intros Hc. unfold normalize_wellsfargo, drop_columns. rewrite Hc.
  cbn [forallb]. rewrite !has_label_positions. cbn [Nat.leb andb Nat.add].
  repeat split.
  - intros Hw. destruct (Nat.ltb 2 w) eqn:E2; [|reflexivity].
    destruct (Nat.ltb 3 w) eqn:E3; [|reflexivity].
    apply Nat.ltb_lt in E3. lia.
  - intros Hw H5.
    rewrite (proj2 (Nat.ltb_lt 2 w)), (proj2 (Nat.ltb_lt 3 w)) by lia.
    cbn [andb bind]. unfold set_columns. cbn [columns].
    rewrite dropped_width by exact Hw.
    destruct (Nat.eqb (length [col "Date"; col "Amount"; col "Description"]) (w - 2))
      eqn:E; [|reflexivity].
    apply Nat.eqb_eq in E. cbn [length] in E. lia.
  - intros ->. cbn. eauto.
Qed.

(** X5. [normalize_wellsfargo] on a table of [w] positional columns: with
    fewer than four columns, [drop] raises a KeyError; with four, or with six
    or more, three names do not fit the columns left and the assignment
    raises a ValueError; with five it returns. *)
Theorem normalize_wellsfargo_width (df : DataFrame) (w : nat) :
  columns df = map LPos (seq 0 w) ->
  (w < 4 -> normalize_wellsfargo df = Raise KeyError) /\
  (4 <= w -> w <> 5 -> normalize_wellsfargo df = Raise ValueError) /\
  (w = 5 -> exists d, normalize_wellsfargo df = Ok d).
Proof. exact (wellsfargo_by_width df w). Qed.

(** ** The third branch of the loop *)

Lemma read_csv_columns (f : file) (df : DataFrame) :
  read_csv f = Ok df -> columns df = map LPos (seq 0 (length (columns df))).
Proof.
  unfold read_csv. destruct (parsed f) as [|r0 rest]; [discriminate|].
  destruct (forallb _ (r0 :: rest)); [|discriminate].
  intros [= <-]. cbn [columns]. now rewrite length_map, length_seq.
Qed.

(** X6. A file whose first cell is a date, by its number of columns: with
    five columns its frame is appended; with four, or with six or more, the
    ValueError of [normalize_wellsfargo] is caught by the handler meant for
    [strptime], so the file is reported as of unknown format and skipped;
    with fewer than four the KeyError is not caught and ends the run. *)
Theorem date_first_file (f : file) (df : DataFrame) (s : string) :
  read_csv f = Ok df ->
  first_cell df = Ok (CStr s) ->
  s <> "Status" -> s <> "Trans. Date" ->
  strptime_mdY s = true ->
  (length (columns df) = 5 ->
   exists d, normalize_wellsfargo df = Ok d /\ loop_body f = Append d) /\
  (4 <= length (columns df) -> length (columns df) <> 5 ->
   loop_body f = Print (unknown_format f)) /\
  (length (columns df) < 4 -> loop_body f = Abort KeyError).
Proof.
  intros Hr Hc H1 H2 Hd.
  rewrite (loop_body_text f df s Hr Hc), Hd.
  apply String.eqb_neq in H1, H2.
  rewrite String.eqb_sym in H1. rewrite String.eqb_sym in H2. rewrite H1, H2.
  destruct (wellsfargo_by_width df (length (columns df))
              (read_csv_columns f df Hr)) as (Hlt & Hne & H5).
  repeat split.
  - intros Hw. destruct (H5 Hw) as [d Hd']. exists d. now rewrite Hd'.
  - intros Hw Hw'. now rewrite (Hne Hw Hw').
  - intros Hw. now rewrite (Hlt Hw).
Qed.

(** ** Normalizing twice *)

(** X7. No normalizer accepts a normalized frame: on a frame with the three
    columns Date, Amount, Description (in either order) [normalize_citi] and
    [normalize_discover] raise, for want of their own columns, and
    [normalize_wellsfargo] raises a KeyError, the columns being named and
    not numbered. *)
Theorem renormalizing_raises (d : DataFrame) :
  columns d = [col "Date"; col "Amount"; col "Description"] \/
  columns d = [col "Date"; col "Description"; col "Amount"] ->
  (exists e, normalize_citi d = Raise e) /\
  (exists e, normalize_discover d = Raise e) /\
  normalize_wellsfargo d = Raise KeyError.
Proof.
  intros Hc.
  assert (Hw : length (columns d) = 3) by (destruct Hc as [-> | ->]; reflexivity).
  repeat split.
  - destruct (normalize_citi d) as [d'|e] eqn:E; [|eauto].
    apply normalize_citi_width in E. lia.
  - destruct (normalize_discover d) as [d'|e] eqn:E; [|eauto].
    apply normalize_discover_width in E. lia.
  - unfold normalize_wellsfargo, drop_columns.
    destruct Hc as [-> | ->]; reflexivity.
Qed.

(** ** When out.csv is written *)

Lemma main_loop_ok_no_abort (files : list file) (printed printed' : list string)
    (acc acc' : list DataFrame) :
  main_loop files printed acc = (printed', Ok acc') ->
  Forall (fun f => forall e, loop_body f <> Abort e) files.
Proof.
  revert printed acc. induction files as [|f files IH]; intros printed acc; simpl.
  - constructor.
  - destruct (loop_body f) as [d|line|e] eqn:E; intros H.
    + constructor; [intros e; rewrite E; discriminate | eapply IH; eauto].
    + constructor; [intros e; rewrite E; discriminate | eapply IH; eauto].
    + discriminate.
Qed.

Lemma categorize_ok (lookup_df : list rule) (x c : cell) :
  categorize lookup_df x = Ok c ->
  lookup_df = [] \/ exists s c', x = CStr s /\ lookup s lookup_df = Ok c'.
Proof.
  destruct x as [s|y|]; cbn [categorize].
  - destruct (lookup s lookup_df) as [c'|e] eqn:E; [|discriminate]. eauto.
  - destruct lookup_df as [|row rest]; [auto|].
    destruct (re_search (regex row) ""); discriminate.
  - destruct lookup_df as [|row rest]; [auto|].
    destruct (re_search (regex row) ""); discriminate.
Qed.

Lemma written_no_abort (lookup_df : list rule) (files : list file) (out : csv) :
  out_csv (main lookup_df files) = Ok out ->
  Forall (fun f => forall e, loop_body f <> Abort e) files.
Proof.
  intros H. unfold main in H. destruct files as [|f fs]; [discriminate|].
  destruct (main_loop (f :: fs) [] []) as [printed r] eqn:ML. cbn [out_csv] in H.
  apply bind_ok in H. destruct H as (dfs & -> & _).
  now apply main_loop_ok_no_abort in ML.
Qed.

Lemma written_descriptions (lookup_df : list rule) (files : list file) (out : csv) :
  out_csv (main lookup_df files) = Ok out ->
  lookup_df <> [] ->
  Forall (fun d =>
            Forall (fun r => exists s c,
                        field "Description" (columns d) r = CStr s /\
                        lookup s lookup_df = Ok c) (rows d))
         (flat_map appended files).
Proof.
  intros H Hne. apply main_ok in H.
  destruct H as (d0 & rest & result & cat & Hfiles & _ & _ & _ & _ & Ht & _ & _ & _ & Hcat).
  rewrite Hfiles. apply Forall_forall. intros d Hd. apply Forall_forall. intros r Hr.
  assert (Hin : In (transaction_of (columns d) r)
                   (map (transaction_of (columns result)) (rows result))).
  { rewrite Ht. apply in_flat_map. exists d. split; [exact Hd|]. now apply in_map. }
  apply in_map_iff in Hin. destruct Hin as (r' & Heq & Hr').
  unfold transaction_of in Heq. injection Heq as _ _ Hdesc.
  rewrite Forall_forall in Hcat. specialize (Hcat r' Hr'). rewrite Hdesc in Hcat.
  apply categorize_ok in Hcat. destruct Hcat as [Hnil | Hs]; [contradiction | exact Hs].
Qed.

(** X8. out.csv is written only if every turn of the loop ended without an
    uncaught exception, at least one file was recognized, and, unless the
    rule table is empty, every Description cell of every normalized row is
    text on which [lookup] answers: one blank or numeric description, or one
    file that raises, and nothing at all is written. *)
Theorem written_only_if (lookup_df : list rule) (files : list file) (out : csv) :
  out_csv (main lookup_df files) = Ok out ->
  Forall (fun f => forall e, loop_body f <> Abort e) files /\
  flat_map appended files <> [] /\
  (lookup_df = [] \/
   Forall (fun d =>
             Forall (fun r => exists s c,
                         field "Description" (columns d) r = CStr s /\
                         lookup s lookup_df = Ok c) (rows d))
          (flat_map appended files)).
Proof.
  intros H. repeat split.
  - exact (written_no_abort lookup_df files out H).
  - apply main_ok in H. destruct H as (d0 & rest & ? & ? & Hfiles & _).
    rewrite Hfiles. discriminate.
  - destruct lookup_df as [|row rules]; [now left | right].
    apply (written_descriptions _ files out H). discriminate.
Qed.

(** X14. With an empty rule table every row written has the category
    "unknown", whatever its description. *)
Theorem empty_rule_table (files : list file) (out : csv) :
  out_csv (main [] files) = Ok out ->
  Forall (fun r => field "Category" (header out) r = CStr "unknown") (body out).
Proof.
  intros H. apply main_ok in H.
  destruct H as (d0 & rest & result & cat & _ & _ & Hn & Hcols & Hrect & _ & _
                 & Hh & Hb & Hcat).
  rewrite Hh, Hb, <- Hcols. apply Forall_map.
  unfold rectangular in Hrect. rewrite Forall_forall in Hrect, Hcat |- *.
  intros r Hr. rewrite field_snoc_new.
  - specialize (Hcat r Hr).
    destruct (field "Description" (columns result) r); cbn in Hcat; congruence.
  - rewrite Hcols. now apply normal_columns_no_category.
  - now apply Hrect.
Qed.

(** X11. Whatever the files, the header written has no name but Date, Amount
    and Description, each of them at least once, and then Category, last:
    no column of an export that the normalizers drop reaches out.csv. *)
Theorem output_header_names (lookup_df : list rule) (files : list file) (out : csv) :
  out_csv (main lookup_df files) = Ok out ->
  exists cs,
    header out = cs ++ [col "Category"] /\
    Forall (fun l => l = col "Date" \/ l = col "Amount" \/ l = col "Description") cs /\
    In (col "Date") cs /\ In (col "Amount") cs /\ In (col "Description") cs.
Proof.
  intros H. apply main_ok in H.
  destruct H as (d0 & rest & result & cat & _ & _ & Hn & _ & _ & _ & _ & Hh & _).
  exists (columns d0). split; [exact Hh|]. split; [now apply normal_columns_cols|].
  destruct Hn as (a & b & c & [-> | ->]); cbn [repeat];
    repeat split; repeat (apply in_or_app; ((left; now left) || right));
    try (now left).
Qed.

(** ** What is printed *)

Lemma loop_body_print (f : file) (line : string) :
  loop_body f = Print line -> line = unknown_format f.
Proof.
  unfold loop_body. destruct (read_csv f) as [df|e]; [|discriminate].
  destruct (first_cell df) as [c|e]; [|discriminate].
  destruct (str_eq_cell "Status" c).
  { destruct (normalize_citi df); discriminate. }
  destruct (str_eq_cell "Trans. Date" c).
  { destruct (normalize_discover df); discriminate. }
  destruct (_ <- strptime c ;; normalize_wellsfargo df) as [d|e]; [discriminate|].
  destruct (is_ValueError e); [|discriminate]. now intros [= <-].
Qed.

Lemma printed_by_skipped (files : list file) :
  flat_map printed_by files =
  map unknown_format
      (filter (fun f => match loop_body f with Print _ => true | _ => false end) files).
Proof.
  induction files as [|f files IH]; [reflexivity|].
  cbn [flat_map filter]. unfold printed_by at 1.
  destruct (loop_body f) as [d|line|e] eqn:E; cbn [app map]; rewrite IH; try reflexivity.
  now rewrite (loop_body_print f line E).
Qed.

Lemma main_loop_printed (files : list file) (printed : list string)
    (acc : list DataFrame) :
  fst (main_loop files printed acc) = printed ++ flat_map printed_by (completed files).
Proof.
  revert printed acc. induction files as [|f files IH]; intros printed acc.
  - cbn. now rewrite app_nil_r.
  - cbn [main_loop completed]. destruct (loop_body f) as [d|line|e] eqn:E.
    + rewrite IH. cbn [flat_map]. unfold printed_by at 2. now rewrite E.
    + rewrite IH. cbn [flat_map]. unfold printed_by at 2. rewrite E.
      now rewrite <- app_assoc.
    + cbn. now rewrite app_nil_r.
Qed.

Lemma completed_no_abort (files : list file) :
  Forall (fun f => forall e, loop_body f <> Abort e) files ->
  completed files = files.
Proof.
  induction 1 as [|f files Hf _ IH]; [reflexivity|].
  cbn [completed]. destruct (loop_body f) as [d|line|e] eqn:E.
  - now rewrite IH.
  - now rewrite IH.
  - now destruct (Hf e).
Qed.

(** X10. What the run prints.  The lines are the "Error: Unknown format
    from" lines of the skipped files among the files whose turn of the loop
    ran to its end, one each and in the order of the command line, and
    nothing else: a file behind the one at which an exception ended the loop
    has no line.  A run that writes out.csv has completed every file, so
    each skipped file of the command line has its line. *)
Theorem printed_lines (lookup_df : list rule) (files : list file) :
  stdout (main lookup_df files) =
    map unknown_format
        (filter (fun f => match loop_body f with Print _ => true | _ => false end)
                (completed files))
  /\ (forall out,
         out_csv (main lookup_df files) = Ok out ->
         completed files = files).
Proof.
  split.
  - unfold main. destruct files as [|f fs]; [reflexivity|].
    pose proof (main_loop_printed (f :: fs) [] []) as Hk.
    destruct (main_loop (f :: fs) [] []) as [printed r]. cbn [stdout fst app] in *.
    now rewrite Hk, printed_by_skipped.
  - intros out H. apply completed_no_abort.
    exact (written_no_abort lookup_df files out H).
Qed.

(** ** A skipped file leaves no trace in out.csv *)

Lemma main_loop_result (files : list file) (p p' : list string) (acc : list DataFrame) :
  snd (main_loop files p acc) = snd (main_loop files p' acc).
Proof.
  revert p p' acc. induction files as [|f files IH]; intros p p' acc; [reflexivity|].
  cbn [main_loop]. destruct (loop_body f); auto.
Qed.

Lemma main_out_csv (lookup_df : list rule) (files files' : list file) :
  files <> [] -> files' <> [] ->
  snd (main_loop files [] []) = snd (main_loop files' [] []) ->
  out_csv (main lookup_df files) = out_csv (main lookup_df files').
Proof.
  intros H H' E. unfold main.
  destruct files as [|f fs]; [now destruct H|].
  destruct files' as [|f' fs']; [now destruct H'|].
  destruct (main_loop (f :: fs) [] []) as [p r].
  destruct (main_loop (f' :: fs') [] []) as [p' r'].
  cbn [snd] in E. subst r'. reflexivity.
Qed.

(** X12. A file whose first cell is text that no check claims changes nothing
    to what is written: with it or without it on the command line, out.csv
    is the same, or the run ends with the same exception. *)
Theorem unrecognized_no_effect (lookup_df : list rule) (pre post : list file) (f : file) :
  unrecognized f ->
  pre ++ post <> [] ->
  out_csv (main lookup_df (pre ++ f :: post)) = out_csv (main lookup_df (pre ++ post)).
Proof.
  intros Hf Hne. apply main_out_csv.
  - now destruct pre.
  - exact Hne.
  - rewrite !main_loop_app.
    destruct (main_loop pre [] []) as [p [acc|e]]; [|reflexivity].
    rewrite (unrecognized_skipped f post p acc Hf). apply main_loop_result.
Qed.

(** ** Which exception a normalizer raises *)

(** [pd.to_numeric] on a column: the numbers, or a ValueError as soon as one
    cell is text that is not a number. *)
Lemma to_numeric_cases (vals : list cell) :
  (Forall parses vals /\ to_numeric vals = Ok (map as_number vals)) \/
  (Exists (fun c => ~ parses c) vals /\ to_numeric vals = Raise ValueError).
Proof.
  unfold to_numeric. induction vals as [|c vals IH]; [left; split; auto|].
  cbn [mapM map]. destruct (to_numeric_cell c) as [c'|e] eqn:E.
  - assert (Hc : parses c) by (exists c'; exact E).
    assert (Ha : as_number c = c') by (unfold as_number; now rewrite E).
    destruct IH as [[HF HE] | [HX HE]]; rewrite HE; cbn [bind].
    + left. split; [now constructor | now rewrite Ha].
    + right. split; [now apply Exists_cons_tl | reflexivity].
  - right. split.
    + apply Exists_cons_hd. intros [c' Hc]. congruence.
    + destruct c as [s|x|]; cbn in E; try discriminate.
      destruct (to_numeric_str s); [discriminate|]. now injection E as <-.
Qed.

Lemma as_number_numeric (c : cell) :
  as_number c = CNaN \/ exists x, as_number c = CNum x.
Proof.
  unfold as_number. destruct c as [s|x|]; cbn; eauto.
  destruct (to_numeric_str s); eauto.
Qed.

(** After [fillna], the cell read under a column that [pd.to_numeric] has
    written adds up with any other such cell. *)
Lemma filled_numeric (cols : list label) (l : label) (r : list cell) (c : cell) :
  has_label l cols = true ->
  exists v,
    hd CNaN (col_values l cols (map fill0 (set_row l cols r (as_number c)))) = v /\
    (v = CNaN \/ exists x, v = CNum x).
Proof.
  intros Hl. eexists. split; [reflexivity|].
  rewrite col_values_map, col_values_set_same by exact Hl. rewrite map_map.
  destruct (col_values l cols r) as [|y t]; cbn; [now left|].
  right. destruct (as_number_numeric c) as [-> | [x ->]]; cbn; eauto.
Qed.

Lemma add_cell_numeric (a b : cell) :
  (a = CNaN \/ exists x, a = CNum x) ->
  (b = CNaN \/ exists x, b = CNum x) ->
  exists c, add_cell a b = Ok c.
Proof.
  intros [-> | [x ->]] [-> | [y ->]]; cbn; eauto.
Qed.

Lemma series_add_numeric {A : Type} (h1 h2 : A -> cell) (data : list A) :
  Forall (fun r => (h1 r = CNaN \/ exists x, h1 r = CNum x) /\
                   (h2 r = CNaN \/ exists x, h2 r = CNum x)) data ->
  exists g, series_add (map h1 data) (map h2 data) = Ok (map g data).
Proof.
  intros H.
  exists (fun r => match add_cell (h1 r) (h2 r) with Ok c => c | Raise _ => CNaN end).
  apply series_add_rowwise. eapply Forall_impl; [|exact H].
  intros r [Ha Hb]. destruct (add_cell_numeric _ _ Ha Hb) as [c Hc]. now rewrite Hc.
Qed.

(** X15. The exception of [normalize_citi], by what is wrong with the table.
    No Debit column: KeyError, whatever else the table holds.  Debit and
    Credit once each and a cell of one of them that is not a number:
    ValueError.  Debit and Credit once each and all numbers, but no Status,
    Member Name, Date or Description column: KeyError. *)
Theorem normalize_citi_exception (df : DataFrame) (hdr : list cell)
    (data : list (list cell)) :
  rows df = hdr :: data ->
  length (columns df) = length hdr ->
  (has_label (col "Debit") (map LVal hdr) = false ->
   normalize_citi df = Raise KeyError) /\
  (count_label (col "Debit") (map LVal hdr) = 1 ->
   count_label (col "Credit") (map LVal hdr) = 1 ->
   (exists r, In r data /\
              (~ parses (field "Debit" (map LVal hdr) r) \/
               ~ parses (field "Credit" (map LVal hdr) r))) ->
   normalize_citi df = Raise ValueError) /\
  (count_label (col "Debit") (map LVal hdr) = 1 ->
   count_label (col "Credit") (map LVal hdr) = 1 ->
   Forall (fun r => parses (field "Debit" (map LVal hdr) r) /\
                    parses (field "Credit" (map LVal hdr) r)) data ->
   has_label (col "Status") (map LVal hdr) = false \/
   has_label (col "Member Name") (map LVal hdr) = false \/
   has_label (col "Date") (map LVal hdr) = false \/
   has_label (col "Description") (map LVal hdr) = false ->
   normalize_citi df = Raise KeyError).
Proof.
  intros Hrows Hw.
  remember (map LVal hdr) as cols eqn:Ecols.
  unfold normalize_citi, iloc0. rewrite Hrows. cbn [bind].
  unfold set_columns. rewrite <- Ecols.
  replace (length cols) with (length (columns df)) by (now rewrite Ecols, length_map).
  rewrite Nat.eqb_refl. cbn [bind].
  unfold tail_rows. cbn [columns index rows]. rewrite Hrows. cbn [tl].
  repeat split.
  - intros HDb. apply has_label_count in HDb.
    unfold getitem. cbn [columns]. now rewrite HDb.
  - intros HDb HCr (r & Hin & Hbad).
    assert (HhD : has_label (col "Debit") cols = true) by (eapply count_has_label; eauto).
    rewrite getitem_plain by exact HDb. cbn [bind].
    destruct (to_numeric_cases
                (map (fun r => hd CNaN (col_values (col "Debit") cols r)) data))
      as [[PD ED] | [_ ED]]; rewrite ED; cbn [bind]; [|reflexivity].
    rewrite map_map, setitem_plain, HhD.
    rewrite getitem_rowwise by exact HCr. cbn [bind].
    match goal with
    | |- context [to_numeric ?v] =>
        destruct (to_numeric_cases v) as [[PC EC] | [_ EC]]; rewrite EC; cbn [bind];
        [exfalso | reflexivity]
    end.
    rewrite Forall_map, Forall_forall in PD, PC.
    specialize (PD r Hin). specialize (PC r Hin).
    rewrite col_values_set_other in PC; [| exact HhD | now apply distinct_cols].
    destruct Hbad as [Hbad | Hbad]; now apply Hbad.
  - intros HDb HCr Hp Hmiss.
    assert (HhD : has_label (col "Debit") cols = true) by (eapply count_has_label; eauto).
    assert (HhC : has_label (col "Credit") cols = true) by (eapply count_has_label; eauto).
    rewrite getitem_plain by exact HDb. cbn [bind].
    rewrite to_numeric_rowwise.
    2:{ eapply Forall_impl; [|exact Hp]. intros r [H _]. exact H. }
    cbn [bind]. rewrite setitem_plain, HhD.
    rewrite getitem_rowwise by exact HCr. cbn [bind].
    rewrite to_numeric_rowwise.
    2:{ eapply Forall_impl; [|exact Hp]. intros r [_ H].
        rewrite col_values_set_other; [exact H | exact HhD | now apply distinct_cols]. }
    cbn [bind]. rewrite setitem_rowwise, HhC.
    unfold fillna0. cbn [columns index rows]. rewrite map_map.
    rewrite !getitem_rowwise by assumption. cbn [bind].
    match goal with
    | |- context [series_add (map ?h1 data) (map ?h2 data)] =>
        destruct (series_add_numeric h1 h2 data) as [g HS]
    end.
    { apply Forall_forall. intros r _. split.
      - destruct (filled_numeric cols (col "Credit")
                    (set_row (col "Debit") cols r
                       (as_number (hd CNaN (col_values (col "Debit") cols r))))
                    (hd CNaN
                       (col_values (col "Credit") cols
                          (set_row (col "Debit") cols r
                             (as_number (hd CNaN (col_values (col "Debit") cols r))))))
                    HhC) as (v & <- & Hv).
        exact Hv.
      - rewrite col_values_map.
        rewrite col_values_set_other; [| exact HhC | now apply distinct_cols].
        rewrite col_values_set_same by exact HhD. rewrite map_map.
        pose proof (as_number_numeric (hd CNaN (col_values (col "Debit") cols r))) as E.
        destruct (col_values (col "Debit") cols r) as [|y t]; cbn [map hd]; [now left|].
        right. cbn [hd] in E. destruct E as [E | [x E]]; rewrite E; cbn; eauto. }
    rewrite HS. cbn [bind]. rewrite setitem_rowwise.
    unfold drop_columns. cbn [columns index rows forallb].
    rewrite !has_label_with by reflexivity. rewrite HhD, HhC.
    destruct (has_label (col "Status") cols) eqn:HSt; [|reflexivity].
    destruct (has_label (col "Member Name") cols) eqn:HMn; [|reflexivity].
    cbn [andb bind]. unfold select_columns. cbn [columns index rows forallb].
    rewrite !has_label_kept by reflexivity.
    rewrite (has_label_with "Date" "Amount"), (has_label_with "Description" "Amount")
      by reflexivity.
    destruct Hmiss as [H | [H | [H | H]]]; try discriminate.
    + now rewrite H.
    + rewrite H. now rewrite !andb_false_r.
Qed.

Lemma has_label_map (f : label -> label) (l l' : label) (cols : list label) :
  (forall c, In c cols -> label_eqb l (f c) = label_eqb l' c) ->
  has_label l (map f cols) = has_label l' cols.
Proof.
  unfold has_label. induction cols as [|a cols IH]; intros H; simpl; [reflexivity|].
  rewrite (H a) by (now left). f_equal. apply IH. intros c Hc. apply H. now right.
Qed.

(** After the renaming, a frame has a Date column when it had a Trans. Date
    column or a Date column. *)
Lemma has_date_renamed (cols : list label) :
  has_label (col "Date")
            (map (fun c => if label_eqb (col "Trans. Date") c then col "Date" else c) cols) =
  has_label (col "Trans. Date") cols || has_label (col "Date") cols.
Proof.
  unfold has_label. induction cols as [|a cols IH]; [reflexivity|].
  cbn [map existsb]. rewrite IH.
  destruct (label_eqb (col "Trans. Date") a) eqn:E.
  - rewrite (proj2 (label_eqb_col_l "Date" (col "Date")) eq_refl). reflexivity.
  - cbn [orb]. destruct (label_eqb (col "Date") a); cbn [orb].
    + now rewrite orb_true_r.
    + reflexivity.
Qed.

(** X16. The exception of [normalize_discover], by what is wrong with the
    table.  No Post Date or no Category column: KeyError.  These two there,
    but no Description, no Amount, or neither Trans. Date nor Date:
    KeyError.  A well-formed header and an Amount cell that is not a number:
    ValueError. *)
Theorem normalize_discover_exception (df : DataFrame) (hdr : list cell)
    (data : list (list cell)) :
  rows df = hdr :: data ->
  length (columns df) = length hdr ->
  (has_label (col "Post Date") (map LVal hdr) = false \/
   has_label (col "Category") (map LVal hdr) = false ->
   normalize_discover df = Raise KeyError) /\
  (has_label (col "Post Date") (map LVal hdr) = true ->
   has_label (col "Category") (map LVal hdr) = true ->
   has_label (col "Description") (map LVal hdr) = false \/
   has_label (col "Amount") (map LVal hdr) = false \/
   (has_label (col "Trans. Date") (map LVal hdr) = false /\
    has_label (col "Date") (map LVal hdr) = false) ->
   normalize_discover df = Raise KeyError) /\
  (discover_header (map LVal hdr) ->
   Forall (fun r => length r = length hdr) data ->
   (exists r, In r data /\ ~ parses (field "Amount" (map LVal hdr) r)) ->
   normalize_discover df = Raise ValueError).
Proof.
  intros Hrows Hw.
  remember (map LVal hdr) as cols eqn:Ecols.
  unfold normalize_discover, iloc0. rewrite Hrows. cbn [bind].
  unfold set_columns. rewrite <- Ecols.
  replace (length cols) with (length (columns df)) by (now rewrite Ecols, length_map).
  rewrite Nat.eqb_refl. cbn [bind].
  unfold tail_rows. cbn [columns index rows]. rewrite Hrows. cbn [tl].
  unfold drop_columns. cbn [columns index rows forallb].
  set (ren := fun c => if label_eqb (col "Trans. Date") c then col "Date" else c).
  repeat split.
  - intros [H | H]; rewrite H; [reflexivity | now rewrite andb_false_r].
  - intros HPd HCa Hmiss. rewrite HPd, HCa. cbn [andb bind].
    unfold rename_column, select_columns. cbn [columns index rows forallb].
    fold ren. rewrite has_date_renamed.
    rewrite (has_label_map ren (col "Description") (col "Description"))
      by (intros; now apply rename_other).
    rewrite (has_label_map ren (col "Amount") (col "Amount"))
      by (intros; now apply rename_other).
    rewrite !has_label_kept by reflexivity.
    destruct Hmiss as [H | [H | [H1 H2]]].
    + rewrite H. now rewrite andb_false_r.
    + rewrite H. now rewrite !andb_false_r.
    + now rewrite H1, H2.
  - intros Hh Hrect (r & Hin & Hbad).
    pose proof Hh as (HTd & HDe & HAm & HPd & HCa & HDa).
    rewrite HPd, HCa. cbn [andb bind].
    unfold rename_column, select_columns. cbn [columns index rows forallb].
    fold ren.
    set (ls := [col "Post Date"; col "Category"]).
    assert (HDa' : has_label (col "Date") (filter (kept ls) cols) = false)
      by (now rewrite has_label_kept).
    assert (C1 : count_label (col "Date") (map ren (filter (kept ls) cols)) = 1).
    { rewrite (count_label_map ren _ (col "Trans. Date")) by (now apply rename_new).
      now rewrite count_label_kept. }
    assert (C2 : count_label (col "Description") (map ren (filter (kept ls) cols)) = 1).
    { rewrite (count_label_map ren _ (col "Description"))
        by (intros; now apply rename_other).
      now rewrite count_label_kept. }
    assert (C3 : count_label (col "Amount") (map ren (filter (kept ls) cols)) = 1).
    { rewrite (count_label_map ren _ (col "Amount"))
        by (intros; now apply rename_other).
      now rewrite count_label_kept. }
    rewrite (count_has_label _ _ _ C1), (count_has_label _ _ _ C2),
      (count_has_label _ _ _ C3).
    cbn [andb bind flat_map].
    rewrite !filter_col_repeat, C1, C2, C3. cbn [repeat app].
    rewrite map_map.
    rewrite (map_ext_in _ (fun r => [ field "Trans. Date" cols r;
                                      field "Description" cols r;
                                      field "Amount" cols r ])).
    2:{ intros r0 Hin0. rewrite Forall_forall in Hrect.
        apply (discover_row cols r0 Hh).
        rewrite Ecols, length_map. now apply Hrect. }
    rewrite getitem_rowwise by reflexivity. cbn [bind].
    match goal with
    | |- context [to_numeric ?v] =>
        destruct (to_numeric_cases v) as [[PC EC] | [_ EC]]; rewrite EC; cbn [bind];
        [exfalso | reflexivity]
    end.
    rewrite Forall_map, Forall_forall in PC. exact (Hbad (PC r Hin)).
Qed.

(** ** The Description column through the normalizers *)









End Further.

(** * The script on the examples of its docstrings *)

Section Examples.

Import Py.

Example read_citi : read_csv citi_csv = Ok citi_df.
Proof. reflexivity. Qed.

Example read_discover : read_csv discover_csv = Ok discover_df.
Proof. reflexivity. Qed.

Example read_wellsfargo : read_csv wellsfargo_csv = Ok wellsfargo_df.
Proof. reflexivity. Qed.

Example read_bad_citi : read_csv bad_citi_csv = Ok bad_citi_df.
Proof. reflexivity. Qed.

Example read_bad_wellsfargo : read_csv bad_wellsfargo_csv = Ok bad_wellsfargo_df.
Proof. reflexivity. Qed.

(** The three calls of the docstring of [lookup] and of the spec. *)
Example lookup_scenario :
  lookup "ALDI 72083 CRYSTAL MN" rules = Ok "food" /\
  lookup "THE AMAZING THREADS INC" rules = Ok "merchandise" /\
  lookup "UNKNOWN VENDOR" rules = Ok "unknown".
Proof. repeat split. Qed.

(** The search does not look at case and need not start at the first
    character. *)
Example lookup_case_and_position :
  lookup "shopping at aldi today" rules = Ok "food".
Proof. reflexivity. Qed.

(** The second call: the rule for ALDI is searched without a match, the
    rule for AMAZING THREADS matches. *)
Lemma lookup_first_match_witness :
  lookup "THE AMAZING THREADS INC" rules = Ok "merchandise".
Proof.
  apply (proj1 (lookup_first_match "THE AMAZING THREADS INC" rules)
           [ {| regex := "ALDI"; category := "food" |} ]
           {| regex := "AMAZING THREADS"; category := "merchandise" |}
           []).
  - reflexivity.
  - repeat constructor.
  - reflexivity.
Defined.

(** The docstring of [normalize_citi]. *)
Lemma normalize_citi_format_a_witness :
  citi_header (map LVal (hd [] (rows citi_df))) /\
  normalize_citi citi_df =
  Ok {| columns := [col "Date"; col "Amount"; col "Description"];
        index := [1; 2];
        rows := [ [S_ "01/28/2023"; N 1452 2;
                   S_ "BROOKLYN PARK PET HOSPITABROOKLYN PARKMN"];
                  [S_ "12/05/2022"; N (-749) 2;
                   S_ "THE HOME DEPOT #2804 BROOKLYN PARKMN"] ] |}.
Proof.
  assert (Hh : citi_header (map LVal (hd [] (rows citi_df))))
    by (repeat split; reflexivity).
  split; [exact Hh|].
  apply (normalize_citi_format_a citi_df (hd [] (rows citi_df)) (tl (rows citi_df))).
  - reflexivity.
  - reflexivity.
  - repeat constructor.
  - exact Hh.
  - repeat constructor; eexists; reflexivity.
Defined.

(** The docstring of [normalize_discover]. *)
Lemma normalize_discover_format_b_witness :
  discover_header (map LVal (hd [] (rows discover_df))) /\
  normalize_discover discover_df =
  Ok {| columns := [col "Date"; col "Description"; col "Amount"];
        index := [1; 2];
        rows := [ [S_ "01/10/2022"; S_ "THE HOME DEPOT #0509 AUSTIN TX"; N 2703 2];
                  [S_ "01/11/2022"; S_ "NEW TECH TENNIS AUSTIN TX"; N 3532 2] ] |}.
Proof.
  assert (Hh : discover_header (map LVal (hd [] (rows discover_df))))
    by (repeat split; reflexivity).
  split; [exact Hh|].
  apply (normalize_discover_format_b discover_df (hd [] (rows discover_df))
           (tl (rows discover_df))).
  - reflexivity.
  - reflexivity.
  - repeat constructor.
  - exact Hh.
  - repeat constructor; eexists; reflexivity.
Defined.

(** C4 as the spec has it fails on the docstring of [normalize_discover]:
    the frame returned has Description before Amount. *)
Lemma normalize_discover_column_order :
  exists d,
    normalize_discover discover_df = Ok d /\
    columns d = [col "Date"; col "Description"; col "Amount"] /\
    columns d <> [col "Date"; col "Amount"; col "Description"].
Proof.
  eexists. split; [reflexivity|]. split; [reflexivity | discriminate].
Qed.

(** The docstring of [normalize_wellsfargo]. *)
Lemma normalize_wellsfargo_positional_witness :
  normalize_wellsfargo wellsfargo_df =
  Ok {| columns := [col "Date"; col "Amount"; col "Description"];
        index := [0; 1];
        rows := [ [S_ "01/10/2023"; N (-724) 2; S_ "Audible*8931J9V53 Amzn.com/billNJ"];
                  [S_ "01/04/2023"; N (-20636) 2;
                   S_ "STATE FARM INSURANCE 800-956-6310 IL"] ] |}.
Proof.
  apply (normalize_wellsfargo_positional wellsfargo_df).
  - reflexivity.
  - repeat constructor.
Defined.

(** C2 at a file whose first column pandas reads as numbers: none of the
    three checks claims it, yet the loop does not print "Unknown format"; the
    TypeError of [strptime] passes the handler and ends the turn. *)
Theorem numeric_first_cell_not_classified :
  first_cell (frame numbered_csv 3) = Ok (N 1 0) /\
  loop_body numbered_csv = Abort TypeError /\
  loop_body numbered_csv <> Print (unknown_format numbered_csv).
Proof. repeat split. discriminate. Qed.

(** The same with a text cell: the file is reported and skipped. *)
Example text_first_cell_classified :
  loop_body other_csv = Print "Error: Unknown format from other.csv".
Proof. reflexivity. Qed.

(** C7 at the same file, followed by the citi export: nothing is printed,
    the citi rows never reach out.csv, the run ends with the TypeError. *)
Theorem numeric_first_cell_ends_run :
  main rules [numbered_csv; citi_csv] =
  {| stdout := []; out_csv := Raise TypeError |}.
Proof. reflexivity. Qed.

(** Scenario 5 of the spec: a text cell no check claims. *)
Example unrecognized_file_skipped :
  exists out,
    main rules [other_csv; citi_csv] =
    {| stdout := ["Error: Unknown format from other.csv"]; out_csv := Ok out |} /\
    body out =
    [ [S_ "01/28/2023"; N 1452 2; S_ "BROOKLYN PARK PET HOSPITABROOKLYN PARKMN";
       S_ "unknown"];
      [S_ "12/05/2022"; N (-749) 2; S_ "THE HOME DEPOT #2804 BROOKLYN PARKMN";
       S_ "unknown"] ].
Proof. eexists. split; reflexivity. Qed.

(** C6 as the spec has it fails twice: a citi export with a Debit cell that
    is not a number ends the run, the wells fargo export behind it is never
    read and nothing is written; and a wells fargo export with an amount
    that is not a number goes through its normalizer without an error. *)
Lemma malformed_table_not_signalled :
  main rules [bad_citi_csv; wellsfargo_csv] =
    {| stdout := []; out_csv := Raise ValueError |} /\
  normalize_wellsfargo bad_wellsfargo_df =
    Ok {| columns := [col "Date"; col "Amount"; col "Description"];
          index := [0];
          rows := [ [S_ "01/10/2023"; S_ "abc";
                     S_ "Audible*8931J9V53 Amzn.com/billNJ"] ] |}.
Proof. split; reflexivity. Qed.

Lemma malformed_table_ends_run_witness :
  exists e,
    normalize_citi bad_citi_df = Raise e /\
    loop_body bad_citi_csv = Abort e /\
    out_csv (main rules [wellsfargo_csv; other_csv; bad_citi_csv; numbered_csv]) =
      Raise e.
Proof.
  destruct (malformed_table_ends_run rules [wellsfargo_csv; other_csv] [numbered_csv]
              bad_citi_csv bad_citi_df) as (e & Hn & He & Hrun & _).
  - reflexivity.
  - left. split; [reflexivity|].
    exists (hd [] (rows bad_citi_df)), (tl (rows bad_citi_df)).
    split; [reflexivity|]. right.
    exists (hd [] (tl (rows bad_citi_df))). split; [simpl; auto|].
    left. intros [c Hc]. discriminate Hc.
  - exists e. split.
    + destruct Hn as [[_ Hn] | [Hc _]]; [exact Hn | discriminate Hc].
    + split; [exact He|]. apply Hrun.
      repeat constructor; intros e' He'; discriminate He'.
Defined.

(** C8 as the spec has it fails on the discover export alone: out.csv has
    Description before Amount. *)
Lemma output_columns_discover_first :
  exists out,
    out_csv (main rules [discover_csv]) = Ok out /\
    header out = [col "Date"; col "Description"; col "Amount"; col "Category"] /\
    header out <> [col "Date"; col "Amount"; col "Description"; col "Category"].
Proof.
  eexists. split; [reflexivity|]. split; [reflexivity | discriminate].
Qed.

(** With the citi export behind it, the citi rows are aligned on the columns
    of the discover frame. *)
Example output_columns_discover_then_citi :
  exists out,
    out_csv (main rules [discover_csv; citi_csv]) = Ok out /\
    header out = [col "Date"; col "Description"; col "Amount"; col "Category"] /\
    nth 2 (body out) [] =
      [S_ "01/28/2023"; S_ "BROOKLYN PARK PET HOSPITABROOKLYN PARKMN"; N 1452 2;
       S_ "unknown"].
Proof.
  eexists. split; [reflexivity|]. split; reflexivity.
Qed.

Lemma output_columns_witness :
  exists out,
    out_csv (main rules [citi_csv; discover_csv; wellsfargo_csv]) = Ok out /\
    header out = [col "Date"; col "Amount"; col "Description"; col "Category"] /\
    length (body out) = 6.
Proof.
  eexists. split; [reflexivity|].
  pose proof (output_columns rules [citi_csv; discover_csv; wellsfargo_csv] _
                eq_refl eq_refl) as (_ & _ & _ & H).
  split; [reflexivity | exact H].
Defined.

Lemma consolidated_in_order_witness :
  exists out,
    out_csv (main rules [discover_csv; citi_csv]) = Ok out /\
    map (transaction_of (header out)) (body out) =
    [ (S_ "01/10/2022", N 2703 2, S_ "THE HOME DEPOT #0509 AUSTIN TX");
      (S_ "01/11/2022", N 3532 2, S_ "NEW TECH TENNIS AUSTIN TX");
      (S_ "01/28/2023", N 1452 2, S_ "BROOKLYN PARK PET HOSPITABROOKLYN PARKMN");
      (S_ "12/05/2022", N (-749) 2, S_ "THE HOME DEPOT #2804 BROOKLYN PARKMN") ].
Proof.
  eexists. split; [reflexivity|].
  exact (proj1 (consolidated_in_order rules [discover_csv; citi_csv] _ eq_refl)).
Defined.

Lemma nothing_to_concatenate_witness :
  main rules [other_csv] =
  {| stdout := ["Error: Unknown format from other.csv"]; out_csv := Raise ValueError |}.
Proof.
  apply (proj2 (nothing_to_concatenate rules [other_csv] ltac:(discriminate))).
  repeat constructor.
  exists (frame other_csv 3), "???".
  repeat split; (reflexivity || discriminate).
Defined.

End Examples.

(** * Further examples *)

Section FurtherExamples.


(** A match before the broken pattern: the pattern is never compiled. *)
Lemma lookup_app_witness :
  lookup (L := Py.lib) "ALDI 72083 CRYSTAL MN" (Py.rules ++ Py.broken_rules) =
  lookup (L := Py.lib) "ALDI 72083 CRYSTAL MN" Py.rules.
Proof.
  apply (proj1 (proj2 (lookup_app (L := Py.lib) "ALDI 72083 CRYSTAL MN" Py.rules Py.broken_rules))
           {| regex := "ALDI"; category := "food" |}).
  - simpl. auto.
  - reflexivity.
Defined.

Lemma normalize_citi_returns_witness :
  exists d,
    normalize_citi Py.citi_df = Ok d /\
    6 <= length (columns Py.citi_df) /\ index d = [1; 2] /\ length (rows d) = 2.
Proof.
  eexists. split; [reflexivity|].
  exact (normalize_citi_returns Py.citi_df _ eq_refl).
Defined.

Lemma normalize_discover_returns_witness :
  exists d,
    normalize_discover Py.discover_df = Ok d /\
    5 <= length (columns Py.discover_df) /\ index d = [1; 2] /\ length (rows d) = 2.
Proof.
  eexists. split; [reflexivity|].
  exact (normalize_discover_returns Py.discover_df _ eq_refl).
Defined.

Lemma normalize_wellsfargo_width_witness :
  normalize_wellsfargo (Py.frame Py.other_csv 3) = Raise KeyError /\
  normalize_wellsfargo (Py.frame Py.short_wellsfargo_csv 4) = Raise ValueError.
Proof.
  split.
  - apply (proj1 (normalize_wellsfargo_width (Py.frame Py.other_csv 3) 3 eq_refl)). lia.
  - apply (proj1 (proj2 (normalize_wellsfargo_width (Py.frame Py.short_wellsfargo_csv 4) 4
                           eq_refl))); lia.
Defined.

Lemma date_first_file_witness :
  loop_body Py.short_wellsfargo_csv = Print "Error: Unknown format from short_wellsfargo.csv".
Proof.
  apply (proj1 (proj2 (date_first_file Py.short_wellsfargo_csv
                         (Py.frame Py.short_wellsfargo_csv 4) "01/10/2023"
                         eq_refl eq_refl ltac:(discriminate) ltac:(discriminate)
                         eq_refl))).
  - simpl. lia.
  - simpl. lia.
Defined.

Lemma renormalizing_raises_witness :
  exists d,
    normalize_citi Py.citi_df = Ok d /\
    (exists e, normalize_citi d = Raise e) /\
    (exists e, normalize_discover d = Raise e) /\
    normalize_wellsfargo d = Raise KeyError.
Proof.
  eexists. split; [reflexivity|].
  apply renormalizing_raises. left. reflexivity.
Defined.

Lemma written_only_if_witness :
  Forall (fun f => forall e, loop_body f <> Abort e) [Py.other_csv; Py.citi_csv] /\
  flat_map appended [Py.other_csv; Py.citi_csv] <> [].
Proof.
  pose proof (written_only_if Py.rules [Py.other_csv; Py.citi_csv] _ eq_refl) as (H1 & H2 & _).
  split; [exact H1 | exact H2].
Defined.

Lemma main_writes_witness :
  exists out,
    main Py.rules [Py.other_csv; Py.citi_csv] =
    {| stdout := ["Error: Unknown format from other.csv"]; out_csv := Ok out |}.
Proof.
  apply (main_writes Py.rules [Py.other_csv; Py.citi_csv]).
  - repeat constructor; intros e; discriminate.
  - discriminate.
  - repeat constructor.
  - repeat constructor; eexists; eexists; split; reflexivity.
Defined.

Lemma output_header_names_witness :
  exists out cs,
    out_csv (main Py.rules [Py.discover_csv; Py.wellsfargo_csv]) = Ok out /\
    header out = cs ++ [col "Category"] /\
    Forall (fun l => l = col "Date" \/ l = col "Amount" \/ l = col "Description") cs.
Proof.
  eexists.
  destruct (output_header_names Py.rules [Py.discover_csv; Py.wellsfargo_csv] _ eq_refl)
    as (cs & H1 & H2 & _).
  exists cs. split; [reflexivity|]. split; [exact H1 | exact H2].
Defined.

(** The second other.csv lies behind numbered.csv, at which the loop ends:
    it has no line.  Without numbered.csv both have theirs. *)
Lemma printed_lines_witness :
  stdout (main (L := Py.lib) Py.rules
               [Py.other_csv; Py.citi_csv; Py.numbered_csv; Py.other_csv]) =
    ["Error: Unknown format from other.csv"]
  /\ completed (L := Py.lib) [Py.other_csv; Py.citi_csv; Py.other_csv] =
       [Py.other_csv; Py.citi_csv; Py.other_csv]
  /\ stdout (main (L := Py.lib) Py.rules [Py.other_csv; Py.citi_csv; Py.other_csv]) =
       ["Error: Unknown format from other.csv"; "Error: Unknown format from other.csv"].
Proof.
  split; [|split].
  - exact (proj1 (printed_lines (L := Py.lib) Py.rules
                    [Py.other_csv; Py.citi_csv; Py.numbered_csv; Py.other_csv])).
  - eapply (proj2 (printed_lines (L := Py.lib) Py.rules
                     [Py.other_csv; Py.citi_csv; Py.other_csv])).
    reflexivity.
  - exact (proj1 (printed_lines (L := Py.lib) Py.rules
                    [Py.other_csv; Py.citi_csv; Py.other_csv])).
Defined.

Lemma unrecognized_no_effect_witness :
  out_csv (main Py.rules ([Py.citi_csv] ++ Py.other_csv :: [Py.discover_csv])) =
  out_csv (main Py.rules ([Py.citi_csv] ++ [Py.discover_csv])).
Proof.
  apply unrecognized_no_effect.
  - exists (Py.frame Py.other_csv 3), "???".
    repeat split; (reflexivity || discriminate).
  - discriminate.
Defined.


(** What the run does there: the TypeError of [re.search]. *)
Example blank_description_type_error :
  main Py.rules [Py.citi_csv; Py.blank_citi_csv] = {| stdout := []; out_csv := Raise TypeError |}.
Proof. reflexivity. Qed.

Lemma empty_rule_table_witness :
  exists out,
    out_csv (main [] [Py.citi_csv; Py.blank_citi_csv]) = Ok out /\
    Forall (fun r => field "Category" (header out) r = CStr "unknown") (body out).
Proof.
  eexists. split; [reflexivity|].
  exact (empty_rule_table [Py.citi_csv; Py.blank_citi_csv] _ eq_refl).
Defined.

Lemma normalize_citi_exception_witness :
  normalize_citi Py.bad_citi_df = Raise ValueError.
Proof.
  apply (proj1 (proj2 (normalize_citi_exception Py.bad_citi_df
                         (hd [] (rows Py.bad_citi_df)) (tl (rows Py.bad_citi_df))
                         eq_refl eq_refl))).
  - reflexivity.
  - reflexivity.
  - exists (hd [] (tl (rows Py.bad_citi_df))). split; [simpl; auto|].
    left. intros [c Hc]. discriminate Hc.
Defined.

Lemma normalize_discover_exception_witness :
  normalize_discover (Py.frame Py.bad_discover_csv 5) = Raise ValueError.
Proof.
  apply (proj2 (proj2 (normalize_discover_exception (Py.frame Py.bad_discover_csv 5)
                         (hd [] (parsed Py.bad_discover_csv)) (tl (parsed Py.bad_discover_csv))
                         eq_refl eq_refl))).
  - repeat split; reflexivity.
  - repeat constructor.
  - exists (hd [] (tl (parsed Py.bad_discover_csv))). split; [simpl; auto|].
    intros [c Hc]. discriminate Hc.
Defined.

End FurtherExamples.
